(** * 4FORE League: request handlers, email templates and browser facade

    A shallow embedding of the Deno edge functions
    (create-setup-intent, create-subscription, create-portal-session,
    send-email) and of the browser helper auth.js.

    JavaScript values that travel as JSON are kept as a datatype; the
    asynchronous, fallible code is written in a small effect monad whose
    only effects are the ones the source performs: [fetch], [console.error],
    reading the clock and calling the datastore client. *)

From Stdlib Require Import String Ascii List ZArith Bool Lia DecimalString.
Import ListNotations.
Set Warnings "-register-all".
Local Open Scope string_scope.
Local Open Scope Z_scope.

(* ================================================================== *)
(** ** JavaScript values *)
(* ================================================================== *)

Module JS.

(** What [JSON.parse] can produce.  Numbers are kept as integers: the code
    only tests them for zero, compares one with [0] and prints them.  The
    embedding covers the integers JavaScript prints digit by digit, those
    of absolute value below 10^21; fractions and larger numbers (printed
    with an exponent) are outside it. *)
Inductive Json : Type :=
| JNull
| JBool (b : bool)
| JNum (n : Z)
| JStr (s : string)
| JArr (items : list Json)
| JObj (fields : list (string * Json)).

(** A JavaScript value as the handlers see it: [None] is [undefined]. *)
Definition value : Type := option Json.

(** Exceptions the code can meet or raise. *)
Inductive exn : Type :=
| TypeError (reading : string)   (* a property read on null or undefined,
                                    or [toString] of a value that has none *)
| SyntaxError                    (* [.json()] on a body that is not JSON *)
| NetworkError (msg : string)    (* [fetch] rejected *)
| Error (msg : string).          (* [new Error(msg)] *)

(** Synchronous code that may throw. *)
Inductive result (A : Type) : Type :=
| Ok (a : A)
| Raise (e : exn).
Arguments Ok {A} a.
Arguments Raise {A} e.

(** The one-character string holding a double quote. *)
Definition dq : string := String (ascii_of_nat 34) EmptyString.

Definition cat (parts : list string) : string :=
  fold_right String.append EmptyString parts.

Definition is_empty (s : string) : bool :=
  match s with EmptyString => true | String _ _ => false end.

(** [s.length]: UTF-16 code units of a string held as UTF-8 bytes. *)
Fixpoint utf16_length (s : string) : Z :=
  match s with
  | EmptyString => 0
  | String c rest =>
      let b := Z.of_nat (nat_of_ascii c) in
      (if b <? 128 then 1
       else if b <? 192 then 0
       else if b <? 240 then 1
       else 2) + utf16_length rest
  end.

(** Number to string, for the integers of absolute value below 10^21,
    which JavaScript prints in plain decimal. *)
Definition num_str (n : Z) : string := NilZero.string_of_int (Z.to_int n).

(** Truthiness ([if (x)], [!x]). *)
Definition truthy (v : value) : bool :=
  match v with
  | None => false
  | Some JNull => false
  | Some (JBool b) => b
  | Some (JNum n) => negb (n =? 0)
  | Some (JStr s) => negb (is_empty s)
  | Some (JArr _) => true
  | Some (JObj _) => true
  end.

(** [a ?? b]. *)
Definition coalesce (a : value) (b : Json) : Json :=
  match a with
  | None => b
  | Some JNull => b
  | Some j => j
  end.

Fixpoint assoc (k : string) (fields : list (string * Json)) : value :=
  match fields with
  | [] => None
  | (k', v) :: rest => if String.eqb k k' then Some v else assoc k rest
  end.

(** The value of property [k] of a value that is neither null nor
    undefined, for the property names the code reads: own properties of an
    object, [length] of arrays and strings. *)
Definition property (j : Json) (k : string) : value :=
  match j with
  | JObj fields => assoc k fields
  | JArr items =>
      if String.eqb k "length" then Some (JNum (Z.of_nat (length items)))
      else None
  | JStr s =>
      if String.eqb k "length" then Some (JNum (utf16_length s))
      else None
  | _ => None
  end.

Definition nullish (x : value) : bool :=
  match x with
  | None => true
  | Some JNull => true
  | _ => false
  end.

(** [x.k]: a TypeError on null and undefined. *)
Definition get (x : value) (k : string) : result value :=
  match x with
  | None => Raise (TypeError k)
  | Some JNull => Raise (TypeError k)
  | Some j => Ok (property j k)
  end.

(** [x?.k]. *)
Definition get_opt (x : value) (k : string) : result value :=
  if nullish x then Ok None else get x k.

(** [x[0]]. *)
Definition get_first (x : value) : result value :=
  match x with
  | None => Raise (TypeError "0")
  | Some JNull => Raise (TypeError "0")
  | Some (JObj fields) => Ok (assoc "0" fields)
  | Some (JArr items) => Ok (hd_error items)
  | Some (JStr s) =>
      match s with
      | EmptyString => Ok None
      | String c _ => Ok (Some (JStr (String c EmptyString)))
      end
  | Some (JBool _) => Ok None
  | Some (JNum _) => Ok None
  end.

(** The string a conversion to string gives, when it gives one (see
    [ToString] for when it throws instead). *)
Fixpoint to_str_json (j : Json) : string :=
  match j with
  | JNull => "null"
  | JBool true => "true"
  | JBool false => "false"
  | JNum n => num_str n
  | JStr s => s
  | JArr items =>
      let element (x : Json) : string :=
        match x with JNull => EmptyString | _ => to_str_json x end in
      (fix items_str (l : list Json) : string :=
         match l with
         | [] => EmptyString
         | [x] => element x
         | x :: rest => element x ++ "," ++ items_str rest
         end) items
  | JObj _ => "[object Object]"
  end.

Definition to_str (v : value) : string :=
  match v with
  | None => "undefined"
  | Some j => to_str_json j
  end.

(** Whether conversion to string throws.  A parsed object is converted
    through its [toString] property: an own [toString] key holds a JSON
    value, which is not callable, and the inherited [valueOf] gives back
    the object, so the conversion ends in a TypeError; without that key the
    inherited method answers.  An array is converted element by element
    ([null] elements are skipped), so it throws when an element does. *)
Fixpoint unprintable (j : Json) : bool :=
  match j with
  | JObj fields =>
      match assoc "toString" fields with
      | Some _ => true
      | None => false
      end
  | JArr items =>
      (fix any (l : list Json) : bool :=
         match l with
         | [] => false
         | x :: rest => unprintable x || any rest
         end) items
  | _ => false
  end.

(** Conversion to string, as a template literal or URLSearchParams does
    it. *)
Definition ToString (v : value) : result string :=
  match v with
  | None => Ok "undefined"
  | Some j =>
      if unprintable j then Raise (TypeError "toString")
      else Ok (to_str_json j)
  end.

Definition and_then {A B : Type} (r : result A) (f : A -> result B) : result B :=
  match r with
  | Ok a => f a
  | Raise e => Raise e
  end.

(** [JSON.stringify]. *)
Definition hex_digit (n : nat) : string :=
  String (ascii_of_nat (if Nat.ltb n 10 then 48 + n else 87 + n)) EmptyString.

Definition escape_char (c : ascii) : string :=
  let n := nat_of_ascii c in
  if Nat.eqb n 34 then "\" ++ dq
  else if Nat.eqb n 92 then "\\"
  else if Nat.eqb n 8 then "\b"
  else if Nat.eqb n 12 then "\f"
  else if Nat.eqb n 10 then "\n"
  else if Nat.eqb n 13 then "\r"
  else if Nat.eqb n 9 then "\t"
  else if Nat.ltb n 32 then "\u00" ++ hex_digit (Nat.div n 16) ++ hex_digit (Nat.modulo n 16)
  else String c EmptyString.

Fixpoint escape (s : string) : string :=
  match s with
  | EmptyString => EmptyString
  | String c rest => escape_char c ++ escape rest
  end.

Definition quote (s : string) : string := dq ++ escape s ++ dq.

Fixpoint JSON_stringify (j : Json) : string :=
  match j with
  | JNull => "null"
  | JBool true => "true"
  | JBool false => "false"
  | JNum n => num_str n
  | JStr s => quote s
  | JArr items =>
      "[" ++ (fix items_str (l : list Json) : string :=
                match l with
                | [] => EmptyString
                | [x] => JSON_stringify x
                | x :: rest => JSON_stringify x ++ "," ++ items_str rest
                end) items ++ "]"
  | JObj fields =>
      "{" ++ (fix fields_str (l : list (string * Json)) : string :=
                match l with
                | [] => EmptyString
                | [(k, v)] => quote k ++ ":" ++ JSON_stringify v
                | (k, v) :: rest =>
                    quote k ++ ":" ++ JSON_stringify v ++ "," ++ fields_str rest
                end) fields ++ "}"
  end.

(** An object literal [{k1: v1, ...}] as [JSON.stringify] will see it:
    properties whose value is [undefined] are left out. *)
Fixpoint object_literal (props : list (string * value)) : list (string * Json) :=
  match props with
  | [] => []
  | (k, Some v) :: rest => (k, v) :: object_literal rest
  | (_, None) :: rest => object_literal rest
  end.

(** [haystack.includes(needle)]. *)
Fixpoint starts_with (prefix s : string) : bool :=
  match prefix, s with
  | EmptyString, _ => true
  | String a p, String b r => Ascii.eqb a b && starts_with p r
  | String _ _, EmptyString => false
  end.

Fixpoint includes (needle s : string) : bool :=
  starts_with needle s ||
  match s with
  | EmptyString => false
  | String _ rest => includes needle rest
  end.

End JS.

Import JS.

(* ================================================================== *)
(** ** Effects: fetch, console, clock, datastore *)
(* ================================================================== *)

Module Effects.

Inductive req_body : Type :=
| NoBody
| FormBody (params : list (string * string))   (* new URLSearchParams(params) *)
| TextBody (text : string).

(** The arguments of one [fetch(url, init)] call. *)
Record fetch_req : Type := mk_fetch_req {
  url : string;
  http_method : string;
  req_headers : list (string * string);
  body : req_body
}.

(** The [Response] a [fetch] resolves to, as far as the code looks at it:
    [res.ok], and what [res.json()] gives ([None]: the body is not JSON and
    [res.json()] rejects). *)
Record http_response : Type := mk_http_response {
  ok : bool;
  parsed : option Json
}.

Inductive fetch_outcome : Type :=
| Rejected (e : exn)
| Resolved (res : http_response).

(** One call on the datastore client: [window.sb.from(table).upsert(row)]. *)
Record db_call : Type := mk_db_call {
  table : string;
  operation : string;
  row : list (string * value)
}.

Inductive log_arg : Type :=
| LogStr (s : string)
| LogVal (v : value)
| LogExn (e : exn).

(** Asynchronous code: a tree of effects ending in a value or an exception. *)
Inductive eff (A : Type) : Type :=
| Ret (a : A)
| Throw (e : exn)
| Fetch (rq : fetch_req) (k : fetch_outcome -> eff A)
| ConsoleError (args : list log_arg) (k : eff A)
| DateNowISO (k : string -> eff A)
| DbCall (c : db_call) (k : value -> eff A).
Arguments Ret {A} a.
Arguments Throw {A} e.
Arguments Fetch {A} rq k.
Arguments ConsoleError {A} args k.
Arguments DateNowISO {A} k.
Arguments DbCall {A} c k.

Fixpoint bind {A B : Type} (p : eff A) (f : A -> eff B) : eff B :=
  match p with
  | Ret a => f a
  | Throw e => Throw e
  | Fetch rq k => Fetch rq (fun o => bind (k o) f)
  | ConsoleError args k => ConsoleError args (bind k f)
  | DateNowISO k => DateNowISO (fun t => bind (k t) f)
  | DbCall c k => DbCall c (fun v => bind (k v) f)
  end.

(** [try { p } catch (err) { h err }]. *)
Fixpoint try_catch {A : Type} (p : eff A) (h : exn -> eff A) : eff A :=
  match p with
  | Ret a => Ret a
  | Throw e => h e
  | Fetch rq k => Fetch rq (fun o => try_catch (k o) h)
  | ConsoleError args k => ConsoleError args (try_catch k h)
  | DateNowISO k => DateNowISO (fun t => try_catch (k t) h)
  | DbCall c k => DbCall c (fun v => try_catch (k v) h)
  end.

Definition lift {A : Type} (r : result A) : eff A :=
  match r with
  | Ok a => Ret a
  | Raise e => Throw e
  end.

Definition fetch (rq : fetch_req) : eff http_response :=
  Fetch rq (fun o =>
    match o with
    | Rejected e => Throw e
    | Resolved res => Ret res
    end).

(** [res.json()]. *)
Definition res_json (res : http_response) : eff Json :=
  match parsed res with
  | Some j => Ret j
  | None => Throw SyntaxError
  end.

Definition console_error (args : list log_arg) : eff unit :=
  ConsoleError args (Ret tt).

Definition date_now_iso : eff string := DateNowISO (fun t => Ret t).

Definition datastore_call (c : db_call) : eff value := DbCall c (fun v => Ret v).

(** *** Running a computation against the outside world *)

(** The outside world of one run: what the [n]-th fetch of the run gets
    for its request, what the clock reads, what the datastore answers. *)
Record world : Type := mk_world {
  upstream : nat -> fetch_req -> fetch_outcome;
  clock : string;
  datastore : db_call -> value
}.

Inductive completion (A : Type) : Type :=
| Returned (a : A)
| Threw (e : exn).
Arguments Returned {A} a.
Arguments Threw {A} e.

Record run_result (A : Type) : Type := mk_run_result {
  fetched : list (fetch_req * fetch_outcome);
  logged : list (list log_arg);
  stored : list db_call;
  outcome : completion A
}.
Arguments mk_run_result {A} _ _ _ _.
Arguments fetched {A} _.
Arguments logged {A} _.
Arguments stored {A} _.
Arguments outcome {A} _.

Fixpoint run_from {A : Type} (w : world) (n : nat) (p : eff A) : run_result A :=
  match p with
  | Ret a => mk_run_result [] [] [] (Returned a)
  | Throw e => mk_run_result [] [] [] (Threw e)
  | Fetch rq k =>
      let o := upstream w n rq in
      let r := run_from w (S n) (k o) in
      mk_run_result ((rq, o) :: fetched r) (logged r) (stored r) (outcome r)
  | ConsoleError args k =>
      let r := run_from w n k in
      mk_run_result (fetched r) (args :: logged r) (stored r) (outcome r)
  | DateNowISO k => run_from w n (k (clock w))
  | DbCall c k =>
      let r := run_from w n (k (datastore w c)) in
      mk_run_result (fetched r) (logged r) (c :: stored r) (outcome r)
  end.

Definition run {A : Type} (w : world) (p : eff A) : run_result A :=
  run_from w 0 p.

(** A run that touched nothing outside. *)
Definition silently {A : Type} (c : completion A) : run_result A :=
  mk_run_result [] [] [] c.

(** A fetch that gave the code no parsed mapping: [fetch] rejected, or the
    body was not JSON and [res.json()] rejected. *)
Definition raised (o : fetch_outcome) : bool :=
  match o with
  | Rejected _ => true
  | Resolved res =>
      match parsed res with
      | Some _ => false
      | None => true
      end
  end.

End Effects.

Import Effects.

Declare Scope eff_scope.
Delimit Scope eff_scope with eff.
Notation "x <- p ;; q" := (bind p (fun x => q))
  (at level 61, p at next level, right associativity) : eff_scope.
Notation "p ;; q" := (bind p (fun _ => q))
  (at level 61, right associativity) : eff_scope.
Local Open Scope eff_scope.

(* ================================================================== *)
(** ** Email templates (send-email/index.ts) *)
(* ================================================================== *)

Module Email.

Record email : Type := mk_email {
  subject : string;
  html : string
}.

Definition ctaButton (href label : string) : string :=
  cat ["<p style="; dq; "margin:28px 0;"; dq;
       ">
    <a href=";
       dq; href; dq; " style="; dq;
       "display:inline-block;padding:14px 32px;background:#1B3D2A;color:#F5F0E8;font-family:'Bebas Neue',Arial,sans-serif;font-size:16px;letter-spacing:2px;text-decoration:none;border-radius:4px;";
       dq; ">"; label;
       "</a>
  </p>"].

(** HTML email base template. *)
Definition template (heading body : string) : string :=
  cat ["<!DOCTYPE html>
<html lang=";
       dq; "en"; dq;
       ">
<head>
<meta charset=";
       dq; "UTF-8"; dq;
       ">
<meta name=";
       dq; "viewport"; dq; " content="; dq;
       "width=device-width,initial-scale=1"; dq;
       ">
<link href=";
       dq;
       "https://fonts.googleapis.com/css2?family=Bebas+Neue&family=DM+Sans:wght@400;500&display=swap";
       dq; " rel="; dq; "stylesheet"; dq;
       ">
<style>
  body { margin:0; background:#F5F0E8; font-family:'DM Sans',Arial,sans-serif; }
  a { color:#1B3D2A; }
</style>
</head>
<body>
<table width=";
       dq; "100%"; dq; " cellpadding="; dq; "0"; dq; " cellspacing="; dq;
       "0"; dq; " bgcolor="; dq; "#F5F0E8"; dq;
       ">
  <tr><td align=";
       dq; "center"; dq; " style="; dq; "padding:40px 16px;"; dq;
       ">
    <table width=";
       dq; "100%"; dq; " cellpadding="; dq; "0"; dq; " cellspacing="; dq;
       "0"; dq; " style="; dq; "max-width:560px;"; dq;
       ">

      <!-- Header -->
      <tr>
        <td style=";
       dq;
       "background:#1B3D2A; padding:28px 40px; border-radius:8px 8px 0 0;";
       dq;
       ">
          <span style=";
       dq;
       "font-family:'Bebas Neue',Arial,sans-serif;font-size:28px;color:#C9A84C;letter-spacing:2px;";
       dq;
       ">4FORE LEAGUE</span>
        </td>
      </tr>

      <!-- Body -->
      <tr>
        <td style=";
       dq; "background:#ffffff;padding:40px;border-radius:0 0 8px 8px;"; dq;
       ">
          <h1 style=";
       dq;
       "font-family:'Bebas Neue',Arial,sans-serif;font-size:32px;color:#1B3D2A;margin:0 0 20px;letter-spacing:1px;";
       dq; ">"; heading;
       "</h1>
          <div style=";
       dq; "font-size:15px;line-height:1.7;color:#333;"; dq;
       ">
            ";
       body;
       "
          </div>
        </td>
      </tr>

      <!-- Footer -->
      <tr>
        <td style=";
       dq; "padding:24px 0;text-align:center;"; dq;
       ">
          <p style=";
       dq; "font-size:12px;color:#9B9083;margin:0;"; dq;
       ">4FORE League · Never Lay Up</p>
          <p style=";
       dq; "font-size:12px;color:#9B9083;margin:4px 0 0;"; dq;
       ">
            <a href=";
       dq; "https://4fore-league.vercel.app"; dq; " style="; dq;
       "color:#9B9083;"; dq;
       ">4fore-league.vercel.app</a>
          </p>
        </td>
      </tr>

    </table>
  </td></tr>
</table>
</body>
</html>"].

Definition is_type (type : value) (literal : string) : bool :=
  match type with
  | Some (JStr s) => String.eqb s literal
  | _ => false
  end.

(** [buildEmail(type, _to, data)]; [Ok None] is the [null] of the
    [default] branch.  Reading [data.name] throws when [data] is [null];
    the name is converted to a string where a template literal uses it,
    that is in the five [case] branches only. *)
Definition buildEmail (type _to data : value) : result (option email) :=
  match get data "name" with
  | Raise e => Raise e
  | Ok data_name =>
    let name := Some (coalesce data_name (JStr "Golfer")) in
    if is_type type "welcome" then
      and_then (ToString name) (fun name =>
      Ok (Some {|
        subject := "Welcome to 4FORE League 🏌️";
        html := template (cat ["Welcome, "; name; "!"]) (cat ["
          <p>You're in. Your 14-day free trial has started — no charge today.</p>
          <p>Here's what you can do right now:</p>
          <ul>
            <li><strong>Start a round</strong> — invite friends and score live</li>
            <li><strong>Complete your profile</strong> — set your handicap and display name</li>
            <li><strong>Explore the leaderboard</strong> — see how your group stacks up</li>
          </ul>
          ";
       ctaButton "https://4fore-league.vercel.app/round.html" "Start Your First Round";
       "
          <p style=";
       dq; "color:#6B6B6B;font-size:13px;margin-top:24px;"; dq;
       ">Questions? Just reply to this email.</p>
        "])
      |}))
    else if is_type type "password-reset" then
      and_then (ToString name) (fun name =>
      Ok (Some {|
        subject := "Reset your 4FORE League password";
        html := template "Reset your password" (cat ["
          <p>Hi ";
       name;
       ",</p>
          <p>We received a request to reset your password. Click the link in the separate email from Supabase to set a new one.</p>
          <p>If you didn't request this, you can safely ignore this message — your account is secure.</p>
          <p style=";
       dq; "color:#6B6B6B;font-size:13px;margin-top:24px;"; dq;
       ">This request will expire in 24 hours.</p>
        "])
      |}))
    else if is_type type "trial-expiry-7" then
      and_then (ToString name) (fun name =>
      Ok (Some {|
        subject := "Your 4FORE trial ends in 7 days";
        html := template "7 days left on your trial" (cat ["
          <p>Hi ";
       name;
       ",</p>
          <p>Your free trial ends in <strong>7 days</strong>. After that, your card on file will be charged to keep your rounds, leaderboard, and profile active.</p>
          <p>You don't need to do anything — we'll handle it automatically.</p>
          ";
       ctaButton "https://4fore-league.vercel.app/round.html" "Play a Round Today";
       "
        "])
      |}))
    else if is_type type "trial-expiry-3" then
      and_then (ToString name) (fun name =>
      Ok (Some {|
        subject := "Your 4FORE trial ends in 3 days";
        html := template "3 days left on your trial" (cat ["
          <p>Hi ";
       name;
       ",</p>
          <p>Just a heads up — your trial ends in <strong>3 days</strong>. Your scoring history and league data will be preserved.</p>
          ";
       ctaButton "https://4fore-league.vercel.app/round.html" "Make the most of it";
       "
        "])
      |}))
    else if is_type type "trial-expiry-1" then
      and_then (ToString name) (fun name =>
      Ok (Some {|
        subject := "Last day of your 4FORE trial";
        html := template "Trial ends tomorrow" (cat ["
          <p>Hi ";
       name;
       ",</p>
          <p>Your trial ends <strong>tomorrow</strong>. Your card will be charged after midnight to continue your membership.</p>
          <p>If you'd like to cancel, reply to this email and we'll sort it out — no questions asked.</p>
          ";
       ctaButton "https://4fore-league.vercel.app/round.html" "Play one last trial round";
       "
        "])
      |}))
    else Ok None
  end.

End Email.

Import Email.

(* ================================================================== *)
(** ** Request handlers (supabase/functions/*/index.ts) *)
(* ================================================================== *)

Module Server.

(** The incoming [Request], as far as the handlers look at it:
    [req.method], and what [req.json()] gives ([None]: it rejects). *)
Record request : Type := mk_request {
  method : string;
  json_body : option Json
}.

Record response : Type := mk_response {
  status : Z;
  headers : list (string * string);
  payload : option string
}.

Definition CORS_HEADERS : list (string * string) :=
  [ ("Access-Control-Allow-Origin", "*");
    ("Access-Control-Allow-Headers",
     "authorization, x-client-info, apikey, content-type");
    ("Access-Control-Allow-Methods", "POST, OPTIONS") ].

(** [json(data, status)]: a JSON response with CORS headers. *)
Definition json (data : list (string * value)) (status : Z) : response :=
  {| status := status;
     headers := CORS_HEADERS ++ [("Content-Type", "application/json")];
     payload := Some (JSON_stringify (JObj (object_literal data))) |}.

(** [new Response(null, { status: 204, headers: CORS_HEADERS })]. *)
Definition preflight_response : response :=
  {| status := 204; headers := CORS_HEADERS; payload := None |}.

Definition form_params (params : list (string * value)) : list (string * string) :=
  map (fun p => (fst p, to_str (snd p))) params.

(** The [fetch] arguments of [stripePost(path, params)], for parameters
    that all convert to strings. *)
Definition stripe_post_request (STRIPE_SECRET_KEY : string) (path : string)
    (params : list (string * value)) : fetch_req :=
  {| url := "https://api.stripe.com/v1/" ++ path;
     http_method := "POST";
     req_headers :=
       [ ("Authorization", "Bearer " ++ STRIPE_SECRET_KEY);
         ("Content-Type", "application/x-www-form-urlencoded") ];
     body := FormBody (form_params params) |}.

(** [new URLSearchParams(params)]: every value is converted to a string,
    in order. *)
Fixpoint URLSearchParams (params : list (string * value))
    : result (list (string * string)) :=
  match params with
  | [] => Ok []
  | (k, v) :: rest =>
      and_then (ToString v) (fun s =>
      and_then (URLSearchParams rest) (fun converted =>
      Ok ((k, s) :: converted)))
  end.

(** POST to the Stripe REST API and return parsed JSON. *)
Definition stripePost (STRIPE_SECRET_KEY : string) (path : string)
    (params : list (string * value)) : eff Json :=
  body <- lift (URLSearchParams params) ;;
  res <- fetch {|
    url := "https://api.stripe.com/v1/" ++ path;
    http_method := "POST";
    req_headers :=
      [ ("Authorization", "Bearer " ++ STRIPE_SECRET_KEY);
        ("Content-Type", "application/x-www-form-urlencoded") ];
    body := FormBody body |} ;;
  res_json res.

(** The [fetch] arguments of [stripeGet(path)]: no method is given, so the
    request is a GET. *)
Definition stripe_get_request (STRIPE_SECRET_KEY : string) (path : string)
    : fetch_req :=
  {| url := "https://api.stripe.com/v1/" ++ path;
     http_method := "GET";
     req_headers := [ ("Authorization", "Bearer " ++ STRIPE_SECRET_KEY) ];
     body := NoBody |}.

Definition stripeGet (STRIPE_SECRET_KEY : string) (path : string) : eff Json :=
  res <- fetch (stripe_get_request STRIPE_SECRET_KEY path) ;;
  res_json res.

Definition error_payload (message : Json) : list (string * value) :=
  [ ("error", Some message) ].

(** The common head of every handler: pre-flight, method, credential and
    body parsing, in the order of the source; [continue] gets the parsed
    body. *)
Definition guarded (secret_name secret : string) (req : request)
    (continue : Json -> eff response) : eff response :=
  if String.eqb (method req) "OPTIONS" then Ret preflight_response
  else if negb (String.eqb (method req) "POST") then
    Ret (json (error_payload (JStr "Method not allowed")) 405)
  else if is_empty secret then
    console_error [LogStr (secret_name ++ " is not set")] ;;
    Ret (json (error_payload (JStr "Server configuration error")) 500)
  else
    match json_body req with
    | None => Ret (json (error_payload (JStr "Invalid JSON body")) 400)
    | Some body => continue body
    end.

(** [catch (err) { console.error('Unexpected error:', err); return json(..., 500) }]. *)
Definition unexpected (err : exn) : eff response :=
  console_error [LogStr "Unexpected error:"; LogExn err] ;;
  Ret (json (error_payload (JStr "Internal server error")) 500).

(** *** create-setup-intent *)

Definition create_setup_intent_try (key : string) (email userId : value)
    : eff response :=
  customer <- stripePost key "customers"
                [ ("email", email); ("metadata[supabase_uid]", userId) ] ;;
  customer_error <- lift (get (Some customer) "error") ;;
  if truthy customer_error then
    console_error [LogStr "Stripe customer error:"; LogVal customer_error] ;;
    message <- lift (get customer_error "message") ;;
    Ret (json (error_payload (coalesce message (JStr "Failed to create customer"))) 502)
  else
    customer_id <- lift (get (Some customer) "id") ;;
    setupIntent <- stripePost key "setup_intents"
                     [ ("customer", customer_id);
                       ("usage", Some (JStr "off_session"));
                       ("automatic_payment_methods[enabled]", Some (JStr "true")) ] ;;
    setupIntent_error <- lift (get (Some setupIntent) "error") ;;
    if truthy setupIntent_error then
      console_error [LogStr "Stripe setup_intent error:"; LogVal setupIntent_error] ;;
      message <- lift (get setupIntent_error "message") ;;
      Ret (json (error_payload (coalesce message (JStr "Failed to create setup intent"))) 502)
    else
      client_secret <- lift (get (Some setupIntent) "client_secret") ;;
      customer_id' <- lift (get (Some customer) "id") ;;
      Ret (json [ ("clientSecret", client_secret); ("customerId", customer_id') ] 200).

Definition create_setup_intent (STRIPE_SECRET_KEY : string) (req : request)
    : eff response :=
  guarded "STRIPE_SECRET_KEY" STRIPE_SECRET_KEY req (fun body =>
    email <- lift (get (Some body) "email") ;;
    userId <- lift (get (Some body) "userId") ;;
    if negb (truthy email) || negb (truthy userId) then
      Ret (json (error_payload (JStr "email and userId are required")) 400)
    else
      try_catch (create_setup_intent_try STRIPE_SECRET_KEY email userId) unexpected).

(** *** create-portal-session *)

Definition create_portal_session_try (key : string) (customerId returnUrl : value)
    : eff response :=
  session <- stripePost key "billing_portal/sessions"
               [ ("customer", customerId); ("return_url", returnUrl) ] ;;
  session_error <- lift (get (Some session) "error") ;;
  if truthy session_error then
    console_error [LogStr "Stripe portal session error:"; LogVal session_error] ;;
    message <- lift (get session_error "message") ;;
    Ret (json (error_payload (coalesce message (JStr "Failed to create portal session"))) 502)
  else
    session_url <- lift (get (Some session) "url") ;;
    Ret (json [ ("url", session_url) ] 200).

Definition create_portal_session (STRIPE_SECRET_KEY : string) (req : request)
    : eff response :=
  guarded "STRIPE_SECRET_KEY" STRIPE_SECRET_KEY req (fun body =>
    customerId <- lift (get (Some body) "customerId") ;;
    returnUrl <- lift (get (Some body) "returnUrl") ;;
    if negb (truthy customerId) || negb (truthy returnUrl) then
      Ret (json (error_payload (JStr "customerId and returnUrl are required")) 400)
    else
      try_catch (create_portal_session_try STRIPE_SECRET_KEY customerId returnUrl)
        unexpected).

(** *** create-subscription *)

Section CreateSubscription.

(** [Number(s) > 0] for a string [s].  JavaScript's conversion of a string
    to a number is not modelled; the handler meets it only when the
    [length] it reads from the payment-method listing is not a number. *)
Variable string_gt_zero : string -> bool.

(** [v > 0]: an array or an object is first converted to a string, which
    can throw. *)
Definition gt_zero (v : value) : result bool :=
  match v with
  | None => Ok false
  | Some JNull => Ok false
  | Some (JBool b) => Ok b
  | Some (JNum n) => Ok (0 <? n)
  | Some (JStr s) => Ok (string_gt_zero s)
  | Some (JArr items) =>
      and_then (ToString (Some (JArr items))) (fun s => Ok (string_gt_zero s))
  | Some (JObj fields) =>
      and_then (ToString (Some (JObj fields))) (fun s => Ok (string_gt_zero s))
  end.

(** Lines 74-91: create the subscription and report. *)
Definition create_subscription_create (key : string)
    (customerId priceId paymentMethodId : value) : eff response :=
  subscription <- stripePost key "subscriptions"
                    [ ("customer", customerId);
                      ("items[0][price]", priceId);
                      ("default_payment_method", paymentMethodId);
                      ("payment_behavior", Some (JStr "default_incomplete"));
                      ("expand[]", Some (JStr "latest_invoice.payment_intent")) ] ;;
  subscription_error <- lift (get (Some subscription) "error") ;;
  if truthy subscription_error then
    console_error [LogStr "Stripe subscription error:"; LogVal subscription_error] ;;
    message <- lift (get subscription_error "message") ;;
    Ret (json (error_payload (coalesce message (JStr "Failed to create subscription"))) 502)
  else
    subscription_id <- lift (get (Some subscription) "id") ;;
    subscription_status <- lift (get (Some subscription) "status") ;;
    Ret (json [ ("subscriptionId", subscription_id);
                ("status", subscription_status) ] 200).

(** Lines 60-68: find the payment method, invoice_settings first, then
    the listed payment methods. *)
Definition create_subscription_payment_method (key : string)
    (customerId : value) (customer : Json) : eff value :=
  invoice_settings <- lift (get (Some customer) "invoice_settings") ;;
  paymentMethodId <- lift (get_opt invoice_settings "default_payment_method") ;;
  if negb (truthy paymentMethodId) then
    customerId_text <- lift (ToString customerId) ;;
    pms <- stripeGet key
             ("payment_methods?customer=" ++ customerId_text ++ "&type=card") ;;
    pms_data <- lift (get (Some pms) "data") ;;
    pms_data_length <- lift (get_opt pms_data "length") ;;
    more_than_zero <- lift (gt_zero pms_data_length) ;;
    if more_than_zero then
      first <- lift (get_first pms_data) ;;
      lift (get first "id")
    else Ret paymentMethodId
  else Ret paymentMethodId.

Definition no_payment_method_message : string :=
  "No payment method found for this customer. Please update your payment method first.".

Definition create_subscription_try (key : string) (customerId priceId : value)
    : eff response :=
  customerId_text <- lift (ToString customerId) ;;
  customer <- stripeGet key ("customers/" ++ customerId_text) ;;
  customer_error <- lift (get (Some customer) "error") ;;
  if truthy customer_error then
    message <- lift (get customer_error "message") ;;
    Ret (json (error_payload (coalesce message (JStr "Customer not found"))) 404)
  else
    paymentMethodId <- create_subscription_payment_method key customerId customer ;;
    if negb (truthy paymentMethodId) then
      Ret (json (error_payload (JStr no_payment_method_message)) 400)
    else
      create_subscription_create key customerId priceId paymentMethodId.

Definition create_subscription (STRIPE_SECRET_KEY : string) (req : request)
    : eff response :=
  guarded "STRIPE_SECRET_KEY" STRIPE_SECRET_KEY req (fun body =>
    customerId <- lift (get (Some body) "customerId") ;;
    priceId <- lift (get (Some body) "priceId") ;;
    if negb (truthy customerId) || negb (truthy priceId) then
      Ret (json (error_payload (JStr "customerId and priceId are required")) 400)
    else
      try_catch (create_subscription_try STRIPE_SECRET_KEY customerId priceId)
        unexpected).

End CreateSubscription.

(** *** send-email *)

Definition FROM_ADDRESS : string := "4FORE League <hello@4fore.golf>".

Definition array_item (v : value) : Json :=
  match v with
  | Some j => j
  | None => JNull
  end.

(** The [fetch] arguments of the call to the delivery provider. *)
Definition resend_request (key : string) (to : value) (message : email)
    : fetch_req :=
  {| url := "https://api.resend.com/emails";
     http_method := "POST";
     req_headers :=
       [ ("Authorization", "Bearer " ++ key);
         ("Content-Type", "application/json") ];
     body := TextBody (JSON_stringify (JObj
               [ ("from", JStr FROM_ADDRESS);
                 ("to", JArr [array_item to]);
                 ("subject", JStr (subject message));
                 ("html", JStr (html message)) ])) |}.

Definition send_email_try (key : string) (to : value) (message : email)
    : eff response :=
  res <- fetch (resend_request key to message) ;;
  result <- res_json res ;;
  if negb (ok res) then
    console_error [LogStr "Resend error:"; LogVal (Some result)] ;;
    result_message <- lift (get (Some result) "message") ;;
    Ret (json (error_payload (coalesce result_message (JStr "Failed to send email"))) 502)
  else
    result_id <- lift (get (Some result) "id") ;;
    Ret (json [ ("id", result_id) ] 200).

(** [data = {}] in the destructuring pattern. *)
Definition default_data (data : value) : value :=
  match data with
  | None => Some (JObj [])
  | Some j => Some j
  end.

Definition send_email (RESEND_API_KEY : string) (req : request) : eff response :=
  guarded "RESEND_API_KEY" RESEND_API_KEY req (fun body =>
    type <- lift (get (Some body) "type") ;;
    to <- lift (get (Some body) "to") ;;
    data <- lift (get (Some body) "data") ;;
    let data := default_data data in
    if negb (truthy type) || negb (truthy to) then
      Ret (json (error_payload (JStr "type and to are required")) 400)
    else
      built <- lift (buildEmail type to data) ;;
      match built with
      | None =>
          type_text <- lift (ToString type) ;;
          Ret (json (error_payload (JStr ("Unknown email type: " ++ type_text))) 400)
      | Some message => try_catch (send_email_try RESEND_API_KEY to message) unexpected
      end).

(** *** The four deployed functions *)

Inductive handler : Type :=
| CreateSetupIntent
| CreateSubscription
| CreatePortalSession
| SendEmail.

(** [Deno.env]: the two secrets, [""] when unset. *)
Record environment : Type := mk_environment {
  STRIPE_SECRET_KEY : string;
  RESEND_API_KEY : string
}.

Definition serve (string_gt_zero : string -> bool) (h : handler)
    (env : environment) (req : request) : eff response :=
  match h with
  | CreateSetupIntent => create_setup_intent (STRIPE_SECRET_KEY env) req
  | CreateSubscription => create_subscription string_gt_zero (STRIPE_SECRET_KEY env) req
  | CreatePortalSession => create_portal_session (STRIPE_SECRET_KEY env) req
  | SendEmail => send_email (RESEND_API_KEY env) req
  end.

Definition secret_of (h : handler) (env : environment) : string :=
  match h with
  | SendEmail => RESEND_API_KEY env
  | _ => STRIPE_SECRET_KEY env
  end.

Definition required_fields (h : handler) : string * string :=
  match h with
  | CreateSetupIntent => ("email", "userId")
  | CreateSubscription => ("customerId", "priceId")
  | CreatePortalSession => ("customerId", "returnUrl")
  | SendEmail => ("type", "to")
  end.

End Server.

Import Server.

(* ================================================================== *)
(** ** Browser facade (auth.js) *)
(* ================================================================== *)

Module Browser.

Definition SUPABASE_URL : string := "https://jfegilifmksmngslnbgm.supabase.co".
Definition EDGE_BASE : string := SUPABASE_URL ++ "/functions/v1".

(** A JavaScript object under construction: property values may be
    [undefined], and assigning an existing key keeps its place. *)
Definition object : Type := list (string * value).

Fixpoint lookup (k : string) (o : object) : option value :=
  match o with
  | [] => None
  | (k', v) :: rest => if String.eqb k k' then Some v else lookup k rest
  end.

Fixpoint set_prop (o : object) (k : string) (v : value) : object :=
  match o with
  | [] => [(k, v)]
  | (k', v') :: rest =>
      if String.eqb k k' then (k', v) :: rest else (k', v') :: set_prop rest k v
  end.

Fixpoint indexed_from (n : nat) (items : list Json) : object :=
  match items with
  | [] => []
  | x :: rest => (num_str (Z.of_nat n), Some x) :: indexed_from (S n) rest
  end.

Fixpoint characters (s : string) : list Json :=
  match s with
  | EmptyString => []
  | String c rest => JStr (String c EmptyString) :: characters rest
  end.

(** The properties of a parsed object, each key once: of a key listed
    twice the first value counts, as [assoc] reads it. *)
Fixpoint properties (fields : list (string * Json)) : object :=
  match fields with
  | [] => []
  | (k, v) :: rest =>
      (k, Some v) :: filter (fun p => negb (String.eqb k (fst p))) (properties rest)
  end.

(** The own enumerable properties [...x] copies.  Nothing for undefined,
    null, booleans and numbers; the indexed elements of an array; the
    indexed characters of a string (exact for ASCII text). *)
Definition own_properties (x : value) : object :=
  match x with
  | Some (JObj fields) => properties fields
  | Some (JArr items) => indexed_from 0 items
  | Some (JStr s) => indexed_from 0 (characters s)
  | _ => []
  end.

(** [{ ...o, ...x }]: the properties of [x] are assigned in order. *)
Definition spread (o : object) (x : value) : object :=
  fold_left (fun acc p => set_prop acc (fst p) (snd p)) (own_properties x) o.

(** [upsertProfile(userId, fields)]. *)
Definition upsertProfile (userId fields : value) : eff value :=
  updated_at <- date_now_iso ;;
  datastore_call {|
    table := "profiles";
    operation := "upsert";
    row := set_prop (spread [("id", userId)] fields)
             "updated_at" (Some (JStr updated_at)) |}.

Definition create_setup_intent_request (email userId : value) : fetch_req :=
  {| url := EDGE_BASE ++ "/create-setup-intent";
     http_method := "POST";
     req_headers := [ ("Content-Type", "application/json") ];
     body := TextBody (JSON_stringify (JObj (object_literal
               [ ("email", email); ("userId", userId) ]))) |}.

(** [createSetupIntent(email, userId)]: calls the create-setup-intent Edge
    Function; returns its JSON or throws on error.  The message of the
    Error is the string form of [json.error], which the Edge Function
    writes as a string. *)
Definition createSetupIntent (email userId : value) : eff Json :=
  res <- fetch (create_setup_intent_request email userId) ;;
  json <- res_json res ;;
  json_error <- lift (get (Some json) "error") ;;
  if truthy json_error then Throw (Error (to_str json_error))
  else Ret json.

Definition send_email_request (type to data : value) : fetch_req :=
  {| url := EDGE_BASE ++ "/send-email";
     http_method := "POST";
     req_headers := [ ("Content-Type", "application/json") ];
     body := TextBody (JSON_stringify (JObj (object_literal
               [ ("type", type); ("to", to); ("data", data) ]))) |}.

(** [sendEmail(type, to, data = {})]. *)
Definition sendEmail (type to data : value) : eff Json :=
  res <- fetch (send_email_request type to (default_data data)) ;;
  res_json res.

End Browser.

Import Browser.

(* ================================================================== *)
(** ** Browser facade, session part (auth.js) *)
(* ================================================================== *)

Module Page.

(** One call on the Supabase client [window.sb]. *)
Inductive sb_call : Type :=
| AuthGetSession                                   (* sb.auth.getSession() *)
| AuthGetUser                                      (* sb.auth.getUser() *)
| AuthSignUp (credentials : object)                (* sb.auth.signUp({...}) *)
| AuthSignInWithPassword (credentials : object)    (* sb.auth.signInWithPassword({...}) *)
| AuthSignOut                                      (* sb.auth.signOut() *)
| AuthResetPasswordForEmail (email : value) (options : object)
| SelectSingle (table columns column : string) (equals : value).
    (* sb.from(table).select(columns).eq(column, equals).single() *)

(** Code of a page: calls on the client, which resolve to a value or
    reject; assignments to [window.location.href]; reads of
    [window.location.origin]. *)
Inductive page (A : Type) : Type :=
| Done (a : A)
| Fails (e : exn)
| Call (c : sb_call) (k : result value -> page A)
| Navigate (href : string) (k : page A)
| ReadOrigin (k : string -> page A).
Arguments Done {A} a.
Arguments Fails {A} e.
Arguments Call {A} c k.
Arguments Navigate {A} href k.
Arguments ReadOrigin {A} k.

Fixpoint page_bind {A B : Type} (p : page A) (f : A -> page B) : page B :=
  match p with
  | Done a => f a
  | Fails e => Fails e
  | Call c k => Call c (fun r => page_bind (k r) f)
  | Navigate href k => Navigate href (page_bind k f)
  | ReadOrigin k => ReadOrigin (fun o => page_bind (k o) f)
  end.

Declare Scope page_scope.
Delimit Scope page_scope with page.
Notation "x <- p ;; q" := (page_bind p (fun x => q))
  (at level 61, p at next level, right associativity) : page_scope.
Notation "p ;; q" := (page_bind p (fun _ => q))
  (at level 61, right associativity) : page_scope.
Local Open Scope page_scope.

(** [await call]. *)
Definition await (c : sb_call) : page value :=
  Call c (fun r =>
    match r with
    | Ok v => Done v
    | Raise e => Fails e
    end).

Definition read (r : result value) : page value :=
  match r with
  | Ok v => Done v
  | Raise e => Fails e
  end.

(** [window.location.href = target], for the targets the pages pass:
    strings. *)
Definition set_location_href (target : value) : page unit :=
  Navigate (to_str target) (Done tt).

Definition location_origin : page string := ReadOrigin (fun o => Done o).

(** A parameter with a default: [name = literal]. *)
Definition default_to (literal : string) (v : value) : value :=
  match v with
  | None => Some (JStr literal)
  | Some j => Some j
  end.

(** Returns the current session, or null. *)
Definition getSession : page value :=
  result <- await AuthGetSession ;;
  data <- read (get result "data") ;;
  read (get data "session").

(** Returns the current user, or null. *)
Definition getUser : page value :=
  result <- await AuthGetUser ;;
  data <- read (get result "data") ;;
  user <- read (get data "user") ;;
  Done (Some (coalesce user JNull)).

(** Redirect to login if not signed in. *)
Definition requireAuth (redirectTo : value) : page value :=
  let redirectTo := default_to "login.html" redirectTo in
  session <- getSession ;;
  (if negb (truthy session) then set_location_href redirectTo else Done tt) ;;
  Done session.

(** Redirect away from auth pages if already signed in. *)
Definition redirectIfAuthed (redirectTo : value) : page unit :=
  let redirectTo := default_to "index.html" redirectTo in
  session <- getSession ;;
  if truthy session then set_location_href redirectTo else Done tt.

Definition signUp (email password : value) : page value :=
  await (AuthSignUp [("email", email); ("password", password)]).

Definition signIn (email password : value) : page value :=
  await (AuthSignInWithPassword [("email", email); ("password", password)]).

Definition signOut : page unit :=
  await AuthSignOut ;;
  set_location_href (Some (JStr "login.html")).

Definition sendPasswordReset (email : value) : page value :=
  origin <- location_origin ;;
  await (AuthResetPasswordForEmail email
           [("redirectTo", Some (JStr (origin ++ "/reset-password.html")))]).

(** [getProfile(userId)]: the row of the user, as [{ data, error }]. *)
Definition getProfile (userId : value) : page object :=
  result <- await (SelectSingle "profiles" "*" "id" userId) ;;
  data <- read (get result "data") ;;
  error <- read (get result "error") ;;
  Done [("data", data); ("error", error)].

(** *** Running a page *)

(** The browser of one run: what the [n]-th call on the client gives, and
    the origin of the page. *)
Record browser : Type := mk_browser {
  sb : nat -> sb_call -> result value;
  origin : string
}.

Inductive page_event : Type :=
| Called (c : sb_call)
| Navigated (href : string).

Record page_run (A : Type) : Type := mk_page_run {
  events : list page_event;
  finished : completion A
}.
Arguments mk_page_run {A} _ _.
Arguments events {A} _.
Arguments finished {A} _.

Fixpoint run_page_from {A : Type} (w : browser) (n : nat) (p : page A)
    : page_run A :=
  match p with
  | Done a => mk_page_run [] (Returned a)
  | Fails e => mk_page_run [] (Threw e)
  | Call c k =>
      let r := run_page_from w (S n) (k (sb w n c)) in
      mk_page_run (Called c :: events r) (finished r)
  | Navigate href k =>
      let r := run_page_from w n k in
      mk_page_run (Navigated href :: events r) (finished r)
  | ReadOrigin k => run_page_from w n (k (origin w))
  end.

Definition run_page {A : Type} (w : browser) (p : page A) : page_run A :=
  run_page_from w 0 p.

(** The places the run navigated to, in order. *)
Fixpoint navigations (l : list page_event) : list string :=
  match l with
  | [] => []
  | Called _ :: rest => navigations rest
  | Navigated href :: rest => href :: navigations rest
  end.

End Page.

Import Page.


(* ================================================================== *)
(** ** Vocabulary of the statements *)
(* ================================================================== *)

(** The fixed error bodies, as text. *)
Definition error_text (message : string) : string :=
  cat ["{"; dq; "error"; dq; ":"; dq; message; dq; "}"].

Definition json_headers : list (string * string) :=
  [ ("Access-Control-Allow-Origin", "*");
    ("Access-Control-Allow-Headers",
     "authorization, x-client-info, apikey, content-type");
    ("Access-Control-Allow-Methods", "POST, OPTIONS");
    ("Content-Type", "application/json") ].

Definition missing_fields_message (h : handler) : string :=
  fst (required_fields h) ++ " and " ++ snd (required_fields h) ++ " are required".

Definition internal_server_error : response :=
  {| status := 500;
     headers := json_headers;
     payload := Some (error_text "Internal server error") |}.

Definition template_ids : list string :=
  [ "welcome"; "password-reset"; "trial-expiry-7"; "trial-expiry-3";
    "trial-expiry-1" ].

Definition recognized (type : value) : bool :=
  match type with
  | Some (JStr s) => existsb (String.eqb s) template_ids
  | _ => false
  end.

(** Two contexts are the same mapping when every property read gives the
    same result on both. *)
Definition same_context (data1 data2 : value) : Prop :=
  forall k : string, get data1 k = get data2 k.

(** [x?.k], as a value. *)
Definition property_of (x : value) (k : string) : value :=
  match x with
  | Some j => property j k
  | None => None
  end.

(** The name a template would print for a context: its [name], or Golfer
    when it has none; and whether that name has a string form. *)
Definition name_prints (data : value) : bool :=
  negb (unprintable (coalesce (property_of data "name") (JStr "Golfer"))).

(** The greeting each template addresses to the fallback name. *)
Definition fallback_greeting (type : value) : string :=
  if is_type type "welcome" then "Welcome, Golfer!" else "Hi Golfer,".

(** [customer.invoice_settings?.default_payment_method]. *)
Definition default_payment_method (customer : Json) : value :=
  property_of (property customer "invoice_settings") "default_payment_method".

(** The three calls of create-subscription. *)
Definition customer_request (key : string) (customerId : value) : fetch_req :=
  stripe_get_request key ("customers/" ++ to_str customerId).

Definition payment_methods_request (key : string) (customerId : value) : fetch_req :=
  stripe_get_request key
    ("payment_methods?customer=" ++ to_str customerId ++ "&type=card").

Definition subscription_request (key : string)
    (customerId priceId paymentMethodId : value) : fetch_req :=
  stripe_post_request key "subscriptions"
    [ ("customer", customerId);
      ("items[0][price]", priceId);
      ("default_payment_method", paymentMethodId);
      ("payment_behavior", Some (JStr "default_incomplete"));
      ("expand[]", Some (JStr "latest_invoice.payment_intent")) ].

Definition no_payment_method_response : response :=
  {| status := 400;
     headers := json_headers;
     payload := Some (error_text no_payment_method_message) |}.

(** An error envelope: [json({ error: message }, status)]. *)
Definition error_response (code : Z) (message : Json) : response :=
  {| status := code;
     headers := json_headers;
     payload := Some (JSON_stringify (JObj [("error", message)])) |}.

(** A stubbed upstream: the replies of the successive fetches, every one
    with an OK status; a fetch past the end is rejected. *)
Definition replies (script : list Json) : world :=
  {| upstream := fun n _ =>
       match nth_error script n with
       | Some j => Resolved {| ok := true; parsed := Some j |}
       | None => Rejected (NetworkError "no reply")
       end;
     clock := "2026-01-01T00:00:00.000Z";
     datastore := fun _ => None |}.

(** The name under which each function reads its secret. *)
Definition secret_name (h : handler) : string :=
  match h with
  | SendEmail => "RESEND_API_KEY"
  | _ => "STRIPE_SECRET_KEY"
  end.

(** Where each function sends its requests. *)
Definition provider_base (h : handler) : string :=
  match h with
  | SendEmail => "https://api.resend.com/emails"
  | _ => "https://api.stripe.com/v1/"
  end.

Definition max_fetches (h : handler) : nat :=
  match h with
  | CreateSetupIntent => 2
  | CreateSubscription => 3
  | CreatePortalSession => 1
  | SendEmail => 1
  end.

(** The status codes each function can answer with. *)
Definition statuses (h : handler) : list Z :=
  match h with
  | CreateSubscription => [200; 204; 400; 404; 405; 500; 502]
  | _ => [200; 204; 400; 405; 500; 502]
  end.

(** The request body is the JSON text [null]. *)
Definition null_body (req : request) : bool :=
  match json_body req with
  | Some JNull => true
  | _ => false
  end.

(** The request body has [data: null]. *)
Definition null_data (req : request) : bool :=
  match json_body req with
  | Some j =>
      match property j "data" with
      | Some JNull => true
      | _ => false
      end
  | None => false
  end.

(** A value has a string form: [ToString] does not throw on it. *)
Definition prints (v : value) : bool :=
  match v with
  | Some j => negb (unprintable j)
  | None => true
  end.

(** The [type] of the request body and the name its [data] gives both have
    a string form. *)
Definition email_prints (req : request) : bool :=
  match json_body req with
  | Some j =>
      prints (property j "type")
      && name_prints (default_data (property j "data"))
  | None => true
  end.

(** The session query fails: the call is rejected, or it resolves to a
    result that is null or whose [data] is null or missing, so that
    [data.session] cannot be read. *)
Definition session_query_fails (w : browser) : bool :=
  match sb w 0 AuthGetSession with
  | Raise _ => true
  | Ok result => nullish result || nullish (property_of result "data")
  end.

(** An upstream whose replies do not depend on what is sent. *)
Definition scripted (reply : nat -> fetch_outcome) : world :=
  {| upstream := fun n _ => reply n;
     clock := EmptyString;
     datastore := fun _ => None |}.

(** The second call of create-setup-intent and the call of
    create-portal-session. *)
Definition setup_intent_request (key : string) (customer_id : value) : fetch_req :=
  stripe_post_request key "setup_intents"
    [ ("customer", customer_id);
      ("usage", Some (JStr "off_session"));
      ("automatic_payment_methods[enabled]", Some (JStr "true")) ].

Definition portal_session_request (key : string) (customerId returnUrl : value)
    : fetch_req :=
  stripe_post_request key "billing_portal/sessions"
    [ ("customer", customerId); ("return_url", returnUrl) ].

(** The property names of an object under construction. *)
Definition keys (o : object) : list string := map fst o.

(* ================================================================== *)
(** ** Properties *)
(* ================================================================== *)

(** Unfolds the handlers down to the effect constructors; string
    conversion, serialization and property reads stay folded. *)
Ltac open_handlers :=
  unfold serve, create_setup_intent, create_setup_intent_try,
    create_portal_session, create_portal_session_try,
    create_subscription, create_subscription_try,
    create_subscription_payment_method, create_subscription_create,
    send_email, send_email_try, stripePost, stripeGet,
    createSetupIntent, sendEmail, upsertProfile,
    guarded, unexpected, fetch, res_json, console_error,
    date_now_iso, datastore_call, lift, run in *.

Ltac run_step :=
  cbn [run_from bind try_catch lift silently raised
       fetched logged stored outcome parsed ok method json_body
       STRIPE_SECRET_KEY RESEND_API_KEY secret_of required_fields
       URLSearchParams
       String.eqb Ascii.eqb Bool.eqb negb orb andb fst snd] in *;
  cbv beta delta [and_then] in *.

(** *** Reading properties *)

Lemma get_property :
  forall (j : Json) (k : string),
    nullish (Some j) = false -> get (Some j) k = Ok (property j k).
Proof.
  intros j k Hj. destruct j; try discriminate Hj; reflexivity.
Qed.

Lemma get_truthy :
  forall (x : value) (k : string),
    truthy x = true -> get x k = Ok (property_of x k).
Proof.
  intros [[ | | | | | ] | ] k Hx; try discriminate Hx; reflexivity.
Qed.

Lemma get_opt_property_of :
  forall (x : value) (k : string), get_opt x k = Ok (property_of x k).
Proof.
  intros [[ | | | | | ] | ] k; reflexivity.
Qed.

Lemma get_value :
  forall (x : value) (k : string),
    get x k = if nullish x then Raise (TypeError k) else Ok (property_of x k).
Proof.
  intros [[ | | | | | ] | ] k; reflexivity.
Qed.

Lemma truthy_not_nullish :
  forall x : value, truthy x = true -> nullish x = false.
Proof.
  intros [[ | | | | | ] | ] H; try discriminate H; reflexivity.
Qed.

Lemma nullish_some_null :
  forall j : Json, nullish (Some j) = true -> j = JNull.
Proof.
  intros j H. destruct j; try discriminate H; reflexivity.
Qed.

Lemma some_eq :
  forall (A : Type) (a b : A), Some a = Some b -> a = b.
Proof. intros A a b H. congruence. Qed.

Lemma resolved_eq :
  forall (b1 b2 : bool) (p1 p2 : option Json),
    Resolved {| ok := b1; parsed := p1 |} = Resolved {| ok := b2; parsed := p2 |} ->
    b1 = b2 /\ p1 = p2.
Proof. intros b1 b2 p1 p2 H. split; congruence. Qed.

Lemma resolved_record :
  forall (b : bool) (p : option Json) (res : http_response),
    Resolved {| ok := b; parsed := p |} = Resolved res ->
    res = {| ok := b; parsed := p |}.
Proof. intros b p res H. congruence. Qed.

Lemma null_has_no_truthy_property :
  forall (j : Json) (k : string),
    nullish (Some j) = true -> truthy (property j k) = true -> False.
Proof.
  intros j k Hnull Htruthy. destruct j; try discriminate Hnull.
  discriminate Htruthy.
Qed.

Lemma returned_eq :
  forall (A : Type) (a b : A), Returned a = Returned b -> a = b.
Proof. intros A a b H. congruence. Qed.

(** *** The handlers on the documented exchanges *)

Example create_setup_intent_success :
  outcome
    (run (replies [ JObj [("id", JStr "cus_1")];
                    JObj [("id", JStr "seti_1");
                          ("client_secret", JStr "seti_1_secret_x")] ])
       (create_setup_intent "sk_test"
          (mk_request "POST"
             (Some (JObj [("email", JStr "a@b.com"); ("userId", JStr "u1")])))))
  = Returned
      {| status := 200;
         headers := json_headers;
         payload := Some (cat ["{"; dq; "clientSecret"; dq; ":"; dq; "seti_1_secret_x"; dq;
                               ","; dq; "customerId"; dq; ":"; dq; "cus_1"; dq; "}"]) |}.
Proof. reflexivity. Qed.

Example create_setup_intent_empty_body :
  run (replies [])
    (create_setup_intent "sk_test" (mk_request "POST" (Some (JObj []))))
  = silently (Returned {| status := 400;
                          headers := json_headers;
                          payload := Some (error_text "email and userId are required") |}).
Proof. reflexivity. Qed.

Example send_email_success :
  outcome
    (run (replies [ JObj [("id", JStr "msg_1")] ])
       (send_email "re_test"
          (mk_request "POST"
             (Some (JObj [("type", JStr "welcome"); ("to", JStr "a@b.com");
                          ("data", JObj [("name", JStr "Pat")])])))))
  = Returned
      {| status := 200;
         headers := json_headers;
         payload := Some (cat ["{"; dq; "id"; dq; ":"; dq; "msg_1"; dq; "}"]) |}.
Proof. reflexivity. Qed.

Example create_subscription_success :
  (let r :=
     run (replies [ JObj [("id", JStr "cus_1");
                          ("invoice_settings",
                           JObj [("default_payment_method", JStr "pm_1")])];
                    JObj [("id", JStr "sub_1"); ("status", JStr "incomplete")] ])
       (create_subscription (fun _ => false) "sk_test"
          (mk_request "POST"
             (Some (JObj [("customerId", JStr "cus_1");
                          ("priceId", JStr "price_1")])))) in
   (map fst (fetched r), outcome r))
  = ([ customer_request "sk_test" (Some (JStr "cus_1"));
       subscription_request "sk_test" (Some (JStr "cus_1"))
         (Some (JStr "price_1")) (Some (JStr "pm_1")) ],
     Returned
       {| status := 200;
          headers := json_headers;
          payload := Some (cat ["{"; dq; "subscriptionId"; dq; ":"; dq; "sub_1"; dq;
                                ","; dq; "status"; dq; ":"; dq; "incomplete"; dq; "}"]) |}).
Proof. reflexivity. Qed.

(** The [error] field counts by truthiness: a reply with [error: null] is
    a success for create-subscription, which goes on to the subscription
    creation, and a reply with an empty [error] is returned by
    [createSetupIntent]. *)
Example create_subscription_null_error_goes_on :
  map fst
    (fetched
       (run (replies [ JObj [("error", JNull); ("id", JStr "cus_1");
                             ("invoice_settings",
                              JObj [("default_payment_method", JStr "pm_1")])];
                       JObj [("id", JStr "sub_1"); ("status", JStr "active")] ])
          (create_subscription (fun _ => false) "sk_test"
             (mk_request "POST"
                (Some (JObj [("customerId", JStr "cus_1");
                             ("priceId", JStr "price_1")]))))))
  = [ customer_request "sk_test" (Some (JStr "cus_1"));
      subscription_request "sk_test" (Some (JStr "cus_1"))
        (Some (JStr "price_1")) (Some (JStr "pm_1")) ].
Proof. reflexivity. Qed.

Example createSetupIntent_empty_error_returns :
  outcome
    (run (replies [ JObj [("error", JStr EmptyString);
                          ("clientSecret", JStr "seti_1_secret_x")] ])
       (createSetupIntent (Some (JStr "a@b.com")) (Some (JStr "u1"))))
  = Returned (JObj [("error", JStr EmptyString);
                    ("clientSecret", JStr "seti_1_secret_x")]).
Proof. reflexivity. Qed.

(** *** Pre-flight and method check *)

(** C5.  For each of the four handlers, whatever the secrets and whatever
    the body: an OPTIONS request gets status 204, no body and the CORS
    headers; a method that is neither POST nor OPTIONS gets status 405 with
    body {error: Method not allowed}.  Nothing is logged and nothing is
    fetched, so both checks come before the credential check, the body
    parsing and the field validation. *)
Theorem C5_preflight_and_method_check :
  forall (sgz : string -> bool) (h : handler) (env : environment) (w : world)
         (body : option Json),
    run w (serve sgz h env (mk_request "OPTIONS" body))
    = silently (Returned {| status := 204;
                            headers := CORS_HEADERS;
                            payload := None |})
    /\
    forall m : string,
      String.eqb m "OPTIONS" = false ->
      String.eqb m "POST" = false ->
      run w (serve sgz h env (mk_request m body))
      = silently (Returned {| status := 405;
                              headers := json_headers;
                              payload := Some (error_text "Method not allowed") |}).
Proof.
  intros sgz h env w body. split.
  - destruct h; reflexivity.
  - intros m Hopt Hpost.
    destruct h; open_handlers; run_step; rewrite Hopt, Hpost; reflexivity.
Qed.

Lemma C5_preflight_and_method_check_witness :
  run (mk_world (fun _ _ => Rejected SyntaxError) EmptyString (fun _ => None))
      (serve (fun _ => false) SendEmail (mk_environment EmptyString EmptyString)
             (mk_request "GET" None))
  = silently (Returned {| status := 405;
                          headers := json_headers;
                          payload := Some (error_text "Method not allowed") |}).
Proof.
  apply (C5_preflight_and_method_check (fun _ => false) SendEmail
           (mk_environment EmptyString EmptyString)
           (mk_world (fun _ _ => Rejected SyntaxError) EmptyString (fun _ => None))
           None);
    reflexivity.
Defined.

(** *** Required fields *)

(** C9.  For each of the four handlers, on a POST with the secret set and a
    JSON body that is not null: when one of the two required fields is
    falsy (absent, or present as the empty string, 0, false or null), the
    answer is the 400 envelope naming the required fields, the same in
    every such case, and nothing is fetched or logged. *)
Theorem C9_falsy_required_field_is_missing :
  forall (sgz : string -> bool) (h : handler) (env : environment) (w : world)
         (body : Json),
    is_empty (secret_of h env) = false ->
    nullish (Some body) = false ->
    truthy (property body (fst (required_fields h))) = false
    \/ truthy (property body (snd (required_fields h))) = false ->
    run w (serve sgz h env (mk_request "POST" (Some body)))
    = silently (Returned {| status := 400;
                            headers := json_headers;
                            payload := Some (error_text (missing_fields_message h)) |}).
Proof.
  intros sgz h env w body Hkey Hbody Hfalsy.
  destruct h; open_handlers; run_step; rewrite Hkey;
    unfold get; destruct body; try discriminate Hbody; run_step;
    destruct Hfalsy as [Hf | Hf]; rewrite Hf; run_step;
    try reflexivity;
    match goal with
    | |- context [truthy ?x] => destruct (truthy x); reflexivity
    end.
Qed.

Lemma C9_falsy_required_field_is_missing_witness :
  run (mk_world (fun _ _ => Rejected SyntaxError) EmptyString (fun _ => None))
      (serve (fun _ => false) CreateSetupIntent (mk_environment "sk_test" EmptyString)
             (mk_request "POST"
                (Some (JObj [("email", JStr EmptyString); ("userId", JStr "u1")]))))
  = silently (Returned {| status := 400;
                          headers := json_headers;
                          payload := Some (error_text "email and userId are required") |}).
Proof.
  apply (C9_falsy_required_field_is_missing (fun _ => false) CreateSetupIntent
           (mk_environment "sk_test" EmptyString)
           (mk_world (fun _ _ => Rejected SyntaxError) EmptyString (fun _ => None))
           (JObj [("email", JStr EmptyString); ("userId", JStr "u1")]));
    [ reflexivity | reflexivity | left; reflexivity ].
Defined.

(** *** Transport failures *)

(** Case analysis on whatever the run is waiting for: a branch condition,
    a property read, the reply of the upstream. *)
Ltac split_on_scrutinee :=
  match goal with
  | H : In _ [] |- _ => destruct H
  | H : In _ (_ :: _) |- _ => destruct H as [H | H]
  | H : (_, _) = (_, _) |- _ => apply pair_equal_spec in H; destruct H; subst
  | H : _ /\ _ |- _ => destruct H
  | H : exists _, _ |- _ => destruct H
  | |- context [match ?x with _ => _ end] =>
      lazymatch x with
      | context [match _ with _ => _ end] => fail
      | _ => destruct x eqn:?
      end
  | H : context [match ?x with _ => _ end] |- _ =>
      lazymatch x with
      | context [match _ with _ => _ end] => fail
      | _ => destruct x eqn:?
      end
  end.

Ltac explore :=
  repeat (run_step; try discriminate; try split_on_scrutinee).

(** C4.  For each of the four handlers and every request: if, during the
    run, a fetch of the upstream rejects or answers with a body that is not
    JSON, the handler returns status 500 with the fixed body
    {error: Internal server error}; the response is this constant, whatever
    the exception was. *)
Theorem C4_transport_exception_gives_500 :
  forall (sgz : string -> bool) (h : handler) (env : environment)
         (req : request) (w : world),
    (exists rq o,
        In (rq, o) (fetched (run w (serve sgz h env req))) /\ raised o = true) ->
    outcome (run w (serve sgz h env req)) = Returned internal_server_error.
Proof.
  intros sgz h env req w Hraised.
  destruct h; open_handlers; explore; reflexivity.
Qed.

Lemma C4_transport_exception_gives_500_witness :
  outcome
    (run (mk_world (fun _ _ => Rejected (NetworkError "connection refused"))
            EmptyString (fun _ => None))
         (serve (fun _ => false) CreatePortalSession
            (mk_environment "sk_test" EmptyString)
            (mk_request "POST"
               (Some (JObj [("customerId", JStr "cus_1");
                            ("returnUrl", JStr "https://4fore.golf/account")])))))
  = Returned internal_server_error.
Proof.
  apply (C4_transport_exception_gives_500 (fun _ => false) CreatePortalSession).
  eexists. eexists. split.
  - vm_compute. left. reflexivity.
  - reflexivity.
Defined.

(** *** Email templates *)

Lemma recognized_cases :
  forall type : value,
    recognized type = true ->
    type = Some (JStr "welcome") \/ type = Some (JStr "password-reset")
    \/ type = Some (JStr "trial-expiry-7") \/ type = Some (JStr "trial-expiry-3")
    \/ type = Some (JStr "trial-expiry-1").
Proof.
  intros [[ | | | s | | ] | ] H; try discriminate H.
  cbn [recognized template_ids existsb] in H.
  repeat (apply orb_true_iff in H; destruct H as [H | H]);
    try discriminate H; apply String.eqb_eq in H; subst; tauto.
Qed.

Lemma unrecognized_is_no_type :
  forall type : value,
    recognized type = false ->
    is_type type "welcome" = false /\ is_type type "password-reset" = false
    /\ is_type type "trial-expiry-7" = false /\ is_type type "trial-expiry-3" = false
    /\ is_type type "trial-expiry-1" = false.
Proof.
  intros [[ | | | s | | ] | ] H; cbn [is_type]; try tauto.
  cbn [recognized template_ids existsb] in H.
  repeat (apply orb_false_iff in H; destruct H as [? H]).
  tauto.
Qed.

Lemma buildEmail_unrecognized :
  forall type to data : value,
    nullish data = false ->
    recognized type = false ->
    buildEmail type to data = Ok None.
Proof.
  intros type to data Hdata Hty.
  destruct (unrecognized_is_no_type type Hty) as (H1 & H2 & H3 & H4 & H5).
  unfold buildEmail, get.
  destruct data as [[ | | | | | ] | ]; try discriminate Hdata;
    rewrite H1, H2, H3, H4, H5; reflexivity.
Qed.

Lemma get_name :
  forall data : value,
    nullish data = false -> get data "name" = Ok (property_of data "name").
Proof.
  intros [[ | | | | | ] | ] H; try discriminate H; reflexivity.
Qed.

Lemma buildEmail_recognized :
  forall type to data : value,
    nullish data = false ->
    name_prints data = true ->
    recognized type = true ->
    exists subject html,
      buildEmail type to data = Ok (Some {| subject := subject; html := html |}).
Proof.
  intros type to data Hdata Hname Hty.
  unfold buildEmail. rewrite (get_name data Hdata).
  unfold name_prints in Hname. apply negb_true_iff in Hname.
  unfold ToString. rewrite Hname.
  destruct (recognized_cases type Hty) as [H | [H | [H | [H | H]]]]; subst type;
    cbn [is_type String.eqb Ascii.eqb Bool.eqb and_then];
    eexists; eexists; reflexivity.
Qed.

Lemma buildEmail_recognized_throws :
  forall (type to data : value),
    nullish data = false ->
    name_prints data = false ->
    recognized type = true ->
    buildEmail type to data = Raise (TypeError "toString").
Proof.
  intros type to data Hdata Hname Hty.
  unfold buildEmail. rewrite (get_name data Hdata).
  unfold name_prints in Hname. apply negb_false_iff in Hname.
  unfold ToString. rewrite Hname.
  destruct (recognized_cases type Hty) as [H | [H | [H | [H | H]]]]; subst type;
    reflexivity.
Qed.

(** C6.  With a context that is not null and whose [name], if any, has a
    string form (every string has one), [buildEmail] returns a subject and
    an HTML body exactly when the template identifier is one of welcome,
    password-reset, trial-expiry-7, trial-expiry-3, trial-expiry-1, and
    returns null for every other identifier; on that null the send-email
    handler, given an identifier that is a string, answers 400 with the
    error message [Unknown email type: ] followed by the identifier, and
    fetches nothing. *)
Theorem C6_five_templates_else_400 :
  (forall type to data : value,
      nullish data = false ->
      name_prints data = true ->
      (recognized type = true <->
       exists subject html,
         buildEmail type to data = Ok (Some {| subject := subject; html := html |}))
      /\ (recognized type = false <-> buildEmail type to data = Ok None))
  /\
  (forall (key : string) (w : world) (body : Json) (type : string),
      is_empty key = false ->
      property body "type" = Some (JStr type) ->
      is_empty type = false ->
      truthy (property body "to") = true ->
      nullish (default_data (property body "data")) = false ->
      recognized (Some (JStr type)) = false ->
      run w (send_email key (mk_request "POST" (Some body)))
      = silently (Returned
          {| status := 400;
             headers := json_headers;
             payload := Some (JSON_stringify (JObj
               [ ("error", JStr ("Unknown email type: " ++ type)) ])) |})).
Proof.
  split.
  - intros type to data Hdata Hname. split; split.
    + apply buildEmail_recognized; assumption.
    + intros (subject & html & Hbuilt).
      destruct (recognized type) eqn:Hty; [reflexivity | ].
      rewrite (buildEmail_unrecognized type to data Hdata Hty) in Hbuilt.
      discriminate Hbuilt.
    + apply buildEmail_unrecognized; assumption.
    + intros Hbuilt.
      destruct (recognized type) eqn:Hty; [ | reflexivity].
      destruct (buildEmail_recognized type to data Hdata Hname Hty) as (s & h & Hsome).
      rewrite Hsome in Hbuilt. discriminate Hbuilt.
  - intros key w body type Hkey Htype Hnonempty Hto Hdata Hty.
    assert (Hbody : nullish (Some body) = false).
    { destruct body; try reflexivity. discriminate Htype. }
    open_handlers. run_step. rewrite Hkey.
    rewrite !get_property by assumption. run_step.
    rewrite Htype, Hto. cbn [truthy]. rewrite Hnonempty. run_step.
    rewrite (buildEmail_unrecognized _ _ _ Hdata Hty). reflexivity.
Qed.

Lemma C6_five_templates_else_400_witness :
  (exists subject html,
      buildEmail (Some (JStr "trial-expiry-3")) (Some (JStr "a@b.com"))
        (Some (JObj [("name", JStr "Pat")]))
      = Ok (Some {| subject := subject; html := html |}))
  /\ buildEmail (Some (JStr "newsletter")) (Some (JStr "a@b.com"))
       (Some (JObj [("name", JStr "Pat")])) = Ok None
  /\ run (mk_world (fun _ _ => Rejected SyntaxError) EmptyString (fun _ => None))
       (send_email "re_test"
          (mk_request "POST"
             (Some (JObj [("type", JStr "unknown-type"); ("to", JStr "a@b.com")]))))
     = silently (Returned
         {| status := 400;
            headers := json_headers;
            payload := Some (error_text "Unknown email type: unknown-type") |}).
Proof.
  split; [ | split].
  - apply (proj1 (proj1 C6_five_templates_else_400
                    (Some (JStr "trial-expiry-3")) (Some (JStr "a@b.com"))
                    (Some (JObj [("name", JStr "Pat")])) eq_refl eq_refl));
      reflexivity.
  - apply (proj2 (proj1 C6_five_templates_else_400
                    (Some (JStr "newsletter")) (Some (JStr "a@b.com"))
                    (Some (JObj [("name", JStr "Pat")])) eq_refl eq_refl));
      reflexivity.
  - apply (proj2 C6_five_templates_else_400 "re_test"
             (mk_world (fun _ _ => Rejected SyntaxError) EmptyString (fun _ => None))
             (JObj [("type", JStr "unknown-type"); ("to", JStr "a@b.com")])
             "unknown-type");
      reflexivity.
Defined.

Lemma buildEmail_reads_the_name_only :
  forall type to1 to2 data1 data2 : value,
    same_context data1 data2 ->
    buildEmail type to1 data1 = buildEmail type to2 data2.
Proof.
  intros type to1 to2 data1 data2 Hsame.
  unfold buildEmail. rewrite (Hsame "name"). reflexivity.
Qed.

(** C7.  What send-email renders and sends depends on the template
    identifier, the recipient and the context only, not on the clock, the
    stored data or what the provider answers.  For two POST requests with
    the same [type] and [to] and contexts that are the same mapping, run in
    any two worlds with the secret set: [buildEmail] gives the same result
    (subject and HTML alike), and the two runs fetch the same requests;
    for a recognized template, a truthy recipient and a context that is not
    null and whose name has a string form, a message is rendered and each
    run fetches once, the delivery request carrying that message. *)
Theorem C7_buildEmail_deterministic :
  forall (key : string) (w1 w2 : world) (body1 body2 : Json),
    let type := property body1 "type" in
    let to := property body1 "to" in
    let data1 := default_data (property body1 "data") in
    let data2 := default_data (property body2 "data") in
    let r1 := run w1 (send_email key (mk_request "POST" (Some body1))) in
    let r2 := run w2 (send_email key (mk_request "POST" (Some body2))) in
    is_empty key = false ->
    nullish (Some body1) = false ->
    nullish (Some body2) = false ->
    property body2 "type" = type ->
    property body2 "to" = to ->
    same_context data1 data2 ->
    buildEmail type to data1 = buildEmail type to data2
    /\ map fst (fetched r1) = map fst (fetched r2)
    /\ (recognized type = true -> truthy to = true ->
        nullish data1 = false -> name_prints data1 = true ->
        exists message : email,
          buildEmail type to data1 = Ok (Some message)
          /\ map fst (fetched r1) = [ resend_request key to message ]
          /\ map fst (fetched r2) = [ resend_request key to message ]).
Proof.
  intros key w1 w2 body1 body2 type to data1 data2 r1 r2
         Hkey Hbody1 Hbody2 Htype Hto Hsame.
  assert (Hbuilt : buildEmail type to data1 = buildEmail type to data2)
    by (apply buildEmail_reads_the_name_only; exact Hsame).
  split; [exact Hbuilt | ].
  assert (Hrendered :
            recognized type = true -> nullish data1 = false ->
            name_prints data1 = true ->
            truthy type = true
            /\ exists message : email, buildEmail type to data1 = Ok (Some message)).
  { intros Hty Hdata Hname. split.
    - destruct (recognized_cases _ Hty) as [H | [H | [H | [H | H]]]];
        rewrite H; reflexivity.
    - destruct (buildEmail_recognized type to data1 Hdata Hname Hty)
        as (subject & html & Hsome).
      eexists. exact Hsome. }
  subst r1 r2 data1 data2 type to.
  open_handlers. run_step. rewrite Hkey.
  rewrite !get_property by assumption. run_step.
  rewrite Htype, Hto, <- Hbuilt. clear Hbuilt Hsame.
  split.
  - clear Hrendered. explore; reflexivity.
  - intros Hty Htruthy_to Hdata Hname.
    destruct (Hrendered Hty Hdata Hname) as (Htruthy_type & message & Hmessage).
    clear Hrendered.
    exists message. split; [exact Hmessage | ].
    rewrite Htruthy_type, Htruthy_to, Hmessage.
    split; explore; reflexivity.
Qed.

Lemma C7_buildEmail_deterministic_witness :
  exists message : email,
    buildEmail (Some (JStr "welcome")) (Some (JStr "a@b.com"))
      (Some (JObj [("name", JStr "Pat"); ("plan", JStr "trial")]))
    = Ok (Some message)
    /\
    map fst
      (fetched
         (run (mk_world (fun _ _ => Rejected SyntaxError) "2024-01-01T00:00:00.000Z"
                 (fun _ => None))
            (send_email "re_test"
               (mk_request "POST"
                  (Some (JObj [("type", JStr "welcome"); ("to", JStr "a@b.com");
                               ("data", JObj [("name", JStr "Pat");
                                              ("plan", JStr "trial")])]))))))
    = [ resend_request "re_test" (Some (JStr "a@b.com")) message ]
    /\
    map fst
      (fetched
         (run (mk_world
                 (fun _ _ => Resolved {| ok := true;
                                         parsed := Some (JObj [("id", JStr "em_1")]) |})
                 "2031-07-15T12:30:00.000Z" (fun _ => None))
            (send_email "re_test"
               (mk_request "POST"
                  (Some (JObj [("to", JStr "a@b.com"); ("type", JStr "welcome");
                               ("data", JObj [("plan", JStr "trial");
                                              ("name", JStr "Pat")])]))))))
    = [ resend_request "re_test" (Some (JStr "a@b.com")) message ].
Proof.
  refine (proj2 (proj2
    (C7_buildEmail_deterministic "re_test"
       (mk_world (fun _ _ => Rejected SyntaxError) "2024-01-01T00:00:00.000Z"
          (fun _ => None))
       (mk_world
          (fun _ _ => Resolved {| ok := true;
                                  parsed := Some (JObj [("id", JStr "em_1")]) |})
          "2031-07-15T12:30:00.000Z" (fun _ => None))
       (JObj [("type", JStr "welcome"); ("to", JStr "a@b.com");
              ("data", JObj [("name", JStr "Pat"); ("plan", JStr "trial")])])
       (JObj [("to", JStr "a@b.com"); ("type", JStr "welcome");
              ("data", JObj [("plan", JStr "trial"); ("name", JStr "Pat")])])
       eq_refl eq_refl eq_refl eq_refl eq_refl _))
    eq_refl eq_refl eq_refl eq_refl).
  change (same_context
            (Some (JObj [("name", JStr "Pat"); ("plan", JStr "trial")]))
            (Some (JObj [("plan", JStr "trial"); ("name", JStr "Pat")]))).
  intro k. unfold get, property. cbn [assoc].
  destruct (String.eqb k "name") eqn:Hname;
    destruct (String.eqb k "plan") eqn:Hplan; try reflexivity.
  apply String.eqb_eq in Hname. apply String.eqb_eq in Hplan.
  subst k. discriminate Hplan.
Defined.

Lemma buildEmail_fallback_name :
  forall type to data : value,
    recognized type = true ->
    get data "name" = Ok None ->
    exists message : email,
      buildEmail type to data = Ok (Some message)
      /\ buildEmail type to (Some (JObj [("name", JStr "Golfer")])) = Ok (Some message)
      /\ includes (fallback_greeting type) (html message) = true.
Proof.
  intros type to data Hty Hname.
  unfold buildEmail. rewrite Hname.
  destruct (recognized_cases type Hty) as [H | [H | [H | [H | H]]]]; subst type;
    (eexists; split; [reflexivity | split; [reflexivity | vm_compute; reflexivity]]).
Qed.

(** C10.  On a POST to send-email with the secret set, a recognized
    template identifier and a truthy recipient: when the body has no [data]
    (the default {} is used) or its [data] has no [name], rendering
    succeeds, the message is the one rendered for the name Golfer, its HTML
    carries the greeting with Golfer, and the handler goes on to the
    delivery provider with that message (one fetch, no 400). *)
Theorem C10_missing_name_renders_Golfer :
  forall (key : string) (w : world) (body : Json),
    is_empty key = false ->
    nullish (Some body) = false ->
    recognized (property body "type") = true ->
    truthy (property body "to") = true ->
    (property body "data" = None
     \/ exists d : Json,
          property body "data" = Some d /\ nullish (Some d) = false
          /\ property d "name" = None) ->
    exists message : email,
      buildEmail (property body "type") (property body "to")
        (default_data (property body "data")) = Ok (Some message)
      /\ buildEmail (property body "type") (property body "to")
           (Some (JObj [("name", JStr "Golfer")])) = Ok (Some message)
      /\ includes (fallback_greeting (property body "type")) (html message) = true
      /\ fetched (run w (send_email key (mk_request "POST" (Some body))))
         = [ (resend_request key (property body "to") message,
              upstream w 0 (resend_request key (property body "to") message)) ].
Proof.
  intros key w body Hkey Hbody Hty Hto Hdata.
  assert (Hname : get (default_data (property body "data")) "name" = Ok None).
  { destruct Hdata as [Hnone | (d & Hsome & Hd & Hno_name)].
    - rewrite Hnone. reflexivity.
    - rewrite Hsome. unfold default_data, get.
      destruct d; try discriminate Hd; rewrite Hno_name; reflexivity. }
  destruct (buildEmail_fallback_name (property body "type") (property body "to")
              (default_data (property body "data")) Hty Hname)
    as (message & Hbuilt & Hgolfer & Hgreeting).
  exists message. repeat split; try assumption.
  assert (Htruthy : truthy (property body "type") = true).
  { destruct (recognized_cases _ Hty) as [H | [H | [H | [H | H]]]];
      rewrite H; reflexivity. }
  open_handlers. run_step. rewrite Hkey.
  unfold get. destruct body; try discriminate Hbody; run_step;
    rewrite Htruthy, Hto; run_step; rewrite Hbuilt; explore; reflexivity.
Qed.

Lemma C10_missing_name_renders_Golfer_witness :
  exists message : email,
    buildEmail (Some (JStr "welcome")) (Some (JStr "a@b.com")) (Some (JObj []))
    = Ok (Some message)
    /\ includes "Welcome, Golfer!" (html message) = true
    /\ fetched
         (run (mk_world (fun _ _ => Rejected SyntaxError) EmptyString (fun _ => None))
            (send_email "re_test"
               (mk_request "POST"
                  (Some (JObj [("type", JStr "welcome"); ("to", JStr "a@b.com")])))))
       = [ (resend_request "re_test" (Some (JStr "a@b.com")) message,
            Rejected SyntaxError) ].
Proof.
  destruct (C10_missing_name_renders_Golfer "re_test"
              (mk_world (fun _ _ => Rejected SyntaxError) EmptyString (fun _ => None))
              (JObj [("type", JStr "welcome"); ("to", JStr "a@b.com")])
              eq_refl eq_refl eq_refl eq_refl (or_introl eq_refl))
    as (message & Hbuilt & _ & Hgreeting & Hfetched).
  exists message. repeat split; assumption.
Defined.

(** *** Browser wrappers *)

(** C3, as stated, fails for [sendEmail].  The statement refuted: whenever
    the reply's JSON has an [error] field, [sendEmail] throws.  On the reply
    {error: Unknown email type: promo} it returns that mapping. *)
Lemma C3_sendEmail_does_not_throw :
  ~ (forall (w : world) (type to data : value) (b : bool) (j : Json),
        upstream w 0 (send_email_request type to (default_data data))
        = Resolved {| ok := b; parsed := Some j |} ->
        property j "error" <> None ->
        exists e : exn, outcome (run w (sendEmail type to data)) = Threw e).
Proof.
  intro Hclaim.
  destruct (Hclaim
              (mk_world
                 (fun _ _ => Resolved
                    {| ok := false;
                       parsed := Some (JObj [("error", JStr "Unknown email type: promo")]) |})
                 EmptyString (fun _ => None))
              (Some (JStr "promo")) (Some (JStr "a@b.com")) None false
              (JObj [("error", JStr "Unknown email type: promo")])
              eq_refl)
    as (e & Hthrew).
  - discriminate.
  - discriminate Hthrew.
Qed.

(** C3, amended.  [createSetupIntent] posts to the create-setup-intent
    function; when the parsed reply (not null) has a truthy [error] it
    throws an Error whose message is that value, otherwise it returns the
    parsed reply.  [sendEmail] posts to the send-email function and returns
    the parsed reply as it is, with or without an [error] field. *)
Theorem C3_wrappers_on_error_field :
  (forall (w : world) (email userId : value) (b : bool) (j : Json),
      upstream w 0 (create_setup_intent_request email userId)
      = Resolved {| ok := b; parsed := Some j |} ->
      nullish (Some j) = false ->
      outcome (run w (createSetupIntent email userId))
      = if truthy (property j "error")
        then Threw (Error (to_str (property j "error")))
        else Returned j)
  /\
  (forall (w : world) (type to data : value) (b : bool) (j : Json),
      upstream w 0 (send_email_request type to (default_data data))
      = Resolved {| ok := b; parsed := Some j |} ->
      outcome (run w (sendEmail type to data)) = Returned j).
Proof.
  split.
  - intros w email userId b j Hreply Hj.
    open_handlers. run_step. rewrite Hreply. run_step.
    unfold get. destruct j; try discriminate Hj; run_step;
      match goal with
      | |- context [truthy ?x] => destruct (truthy x); reflexivity
      end.
  - intros w type to data b j Hreply.
    open_handlers. run_step. rewrite Hreply. reflexivity.
Qed.

Lemma C3_wrappers_on_error_field_witness :
  outcome
    (run (mk_world
            (fun _ _ => Resolved
               {| ok := false;
                  parsed := Some (JObj [("error", JStr "email and userId are required")]) |})
            EmptyString (fun _ => None))
         (createSetupIntent (Some (JStr EmptyString)) (Some (JStr "u1"))))
  = Threw (Error "email and userId are required")
  /\
  outcome
    (run (mk_world
            (fun _ _ => Resolved
               {| ok := false;
                  parsed := Some (JObj [("error", JStr "type and to are required")]) |})
            EmptyString (fun _ => None))
         (sendEmail (Some (JStr "welcome")) None None))
  = Returned (JObj [("error", JStr "type and to are required")]).
Proof.
  split.
  - apply (proj1 C3_wrappers_on_error_field
             (mk_world
                (fun _ _ => Resolved
                   {| ok := false;
                      parsed := Some (JObj [("error", JStr "email and userId are required")]) |})
                EmptyString (fun _ => None))
             (Some (JStr EmptyString)) (Some (JStr "u1")) false
             (JObj [("error", JStr "email and userId are required")]));
      reflexivity.
  - apply (proj2 C3_wrappers_on_error_field
             (mk_world
                (fun _ _ => Resolved
                   {| ok := false;
                      parsed := Some (JObj [("error", JStr "type and to are required")]) |})
                EmptyString (fun _ => None))
             (Some (JStr "welcome")) None None false
             (JObj [("error", JStr "type and to are required")]));
      reflexivity.
Defined.

(** *** Profile upsert *)

Lemma lookup_set_prop_same :
  forall (o : object) (k : string) (v : value),
    lookup k (set_prop o k v) = Some v.
Proof.
  induction o as [ | [k' v'] rest IH]; intros k v; cbn [set_prop lookup].
  - rewrite String.eqb_refl. reflexivity.
  - destruct (String.eqb k k') eqn:Hk; cbn [lookup]; rewrite Hk.
    + reflexivity.
    + apply IH.
Qed.

Lemma lookup_set_prop_other :
  forall (o : object) (k k' : string) (v : value),
    String.eqb k k' = false ->
    lookup k (set_prop o k' v) = lookup k o.
Proof.
  induction o as [ | [k0 v0] rest IH]; intros k k' v Hk; cbn [set_prop lookup].
  - rewrite Hk. reflexivity.
  - destruct (String.eqb k' k0) eqn:Hk0; cbn [lookup].
    + apply String.eqb_eq in Hk0. subst k0. rewrite Hk. reflexivity.
    + destruct (String.eqb k k0); [reflexivity | apply IH; assumption].
Qed.

Lemma lookup_assign_all_absent :
  forall (props o : object) (k : string),
    lookup k props = None ->
    lookup k (fold_left (fun acc p => set_prop acc (fst p) (snd p)) props o)
    = lookup k o.
Proof.
  induction props as [ | [k' v'] rest IH]; intros o k Habsent; cbn [fold_left fst snd].
  - reflexivity.
  - cbn [lookup] in Habsent.
    destruct (String.eqb k k') eqn:Hk; [discriminate Habsent | ].
    rewrite (IH _ _ Habsent). apply lookup_set_prop_other. assumption.
Qed.

(** C8, as stated, fails.  Were the timestamp set by the server, the row
    the browser sends would not depend on the browser's clock; it does: two
    browsers whose clocks differ send different rows. *)
Lemma C8_timestamp_is_the_browser_clock :
  ~ (forall (up : nat -> fetch_req -> fetch_outcome) (ds : db_call -> value)
            (clock1 clock2 : string) (userId fields : value),
        stored (run (mk_world up clock1 ds) (upsertProfile userId fields))
        = stored (run (mk_world up clock2 ds) (upsertProfile userId fields))).
Proof.
  intro Hclaim.
  specialize (Hclaim (fun _ _ => Rejected SyntaxError) (fun _ => None)
                "2026-01-01T00:00:00.000Z" "2026-06-30T12:00:00.000Z"
                (Some (JStr "user-1")) (Some (JObj [("handicap", JNum 12)]))).
  vm_compute in Hclaim. discriminate Hclaim.
Qed.

(** C8, amended.  [upsertProfile] makes one upsert call on the profiles
    table and returns its answer.  The row's [updated_at] is what the
    browser's own clock reads at the call, whatever [fields] holds; the
    row's [id] is the user identifier when [fields] has no [id] of its
    own. *)
Theorem C8_upsert_row :
  forall (w : world) (userId fields : value),
    exists r : object,
      run w (upsertProfile userId fields)
      = {| fetched := [];
           logged := [];
           stored := [ {| table := "profiles"; operation := "upsert"; row := r |} ];
           outcome := Returned
             (datastore w {| table := "profiles"; operation := "upsert"; row := r |}) |}
      /\ lookup "updated_at" r = Some (Some (JStr (clock w)))
      /\ (lookup "id" (own_properties fields) = None ->
          lookup "id" r = Some userId).
Proof.
  intros w userId fields.
  eexists. split; [reflexivity | split].
  - apply lookup_set_prop_same.
  - intro Hno_id.
    rewrite lookup_set_prop_other by reflexivity.
    unfold spread. rewrite (lookup_assign_all_absent _ _ _ Hno_id).
    reflexivity.
Qed.

Lemma C8_upsert_row_witness :
  exists r : object,
    stored (run (mk_world (fun _ _ => Rejected SyntaxError)
                   "2026-01-01T00:00:00.000Z" (fun _ => None))
              (upsertProfile (Some (JStr "user-1"))
                 (Some (JObj [("handicap", JNum 12);
                              ("updated_at", JStr "1999-12-31T00:00:00.000Z")]))))
    = [ {| table := "profiles"; operation := "upsert"; row := r |} ]
    /\ lookup "updated_at" r = Some (Some (JStr "2026-01-01T00:00:00.000Z"))
    /\ lookup "id" r = Some (Some (JStr "user-1")).
Proof.
  destruct (C8_upsert_row
              (mk_world (fun _ _ => Rejected SyntaxError)
                 "2026-01-01T00:00:00.000Z" (fun _ => None))
              (Some (JStr "user-1"))
              (Some (JObj [("handicap", JNum 12);
                           ("updated_at", JStr "1999-12-31T00:00:00.000Z")])))
    as (r & Hrun & Hstamp & Hid).
  exists r. split; [rewrite Hrun; reflexivity | split].
  - exact Hstamp.
  - apply Hid. reflexivity.
Defined.

(** *** Subscription creation *)

Ltac read_properties :=
  repeat first
    [ rewrite get_opt_property_of in *
    | rewrite get_property in * by assumption
    | rewrite get_truthy in * by assumption ].

Ltac read_listing :=
  repeat (progress
    (run_step; read_properties;
     cbn [property_of property String.eqb Ascii.eqb Bool.eqb
          gt_zero length Z.of_nat Z.ltb Z.compare get_first hd_error] in *)).

Ltac print_strings :=
  run_step;
  cbn [ToString unprintable to_str_json String.append] in *;
  run_step.

(** C2.  On a POST to create-subscription with the secret set, a
    [customerId] and a [priceId] that are non-empty strings, and a customer
    fetch (GET customers/<customerId>) that answers a mapping without a
    truthy [error]:
    - when the customer's invoice settings hold a default payment method (a
      non-empty string), no listing is made and the subscription is created
      with it: one POST to subscriptions whose form carries the customer,
      the price and that payment method;
    - otherwise the handler lists the customer's payment methods of type
      card (GET payment_methods?customer=<customerId>&type=card) and creates
      the subscription with the id of the first one listed;
    - when the listing has no data, no element, or a first element without
      an id, the handler answers 400 with the no-payment-method message and
      does not call subscription creation. *)
Theorem C2_payment_method_resolution :
  forall (sgz : string -> bool) (key : string) (w : world) (body : Json)
         (customerId priceId : string) (b0 : bool) (customer : Json),
    let r := run w (create_subscription sgz key (mk_request "POST" (Some body))) in
    let provider_get (path : string) :=
      {| url := "https://api.stripe.com/v1/" ++ path;
         http_method := "GET";
         req_headers := [ ("Authorization", "Bearer " ++ key) ];
         body := NoBody |} in
    let create_with (paymentMethodId : string) :=
      {| url := "https://api.stripe.com/v1/subscriptions";
         http_method := "POST";
         req_headers :=
           [ ("Authorization", "Bearer " ++ key);
             ("Content-Type", "application/x-www-form-urlencoded") ];
         body := FormBody
           [ ("customer", customerId);
             ("items[0][price]", priceId);
             ("default_payment_method", paymentMethodId);
             ("payment_behavior", "default_incomplete");
             ("expand[]", "latest_invoice.payment_intent") ] |} in
    let customer_get := provider_get ("customers/" ++ customerId) in
    let listing_get :=
      provider_get ("payment_methods?customer=" ++ customerId ++ "&type=card") in
    let customer_call :=
      (customer_get, Resolved {| ok := b0; parsed := Some customer |}) in
    is_empty key = false ->
    property body "customerId" = Some (JStr customerId) ->
    is_empty customerId = false ->
    property body "priceId" = Some (JStr priceId) ->
    is_empty priceId = false ->
    upstream w 0 customer_get = Resolved {| ok := b0; parsed := Some customer |} ->
    nullish (Some customer) = false ->
    truthy (property customer "error") = false ->
    (forall paymentMethodId : string,
        default_payment_method customer = Some (JStr paymentMethodId) ->
        is_empty paymentMethodId = false ->
        fetched r
        = [ customer_call;
            (create_with paymentMethodId, upstream w 1 (create_with paymentMethodId)) ])
    /\
    (truthy (default_payment_method customer) = false ->
     forall (b1 : bool) (pms : Json),
       let listing_call :=
         (listing_get, Resolved {| ok := b1; parsed := Some pms |}) in
       upstream w 1 listing_get = Resolved {| ok := b1; parsed := Some pms |} ->
       nullish (Some pms) = false ->
       (forall (first : Json) (rest : list Json) (id : string),
           property pms "data" = Some (JArr (first :: rest)) ->
           property first "id" = Some (JStr id) ->
           is_empty id = false ->
           fetched r
           = [ customer_call; listing_call;
               (create_with id, upstream w 2 (create_with id)) ])
       /\
       (property pms "data" = None
        \/ property pms "data" = Some (JArr [])
        \/ (exists (first : Json) (rest : list Json),
               property pms "data" = Some (JArr (first :: rest))
               /\ nullish (Some first) = false
               /\ truthy (property first "id") = false) ->
        fetched r = [ customer_call; listing_call ]
        /\ outcome r = Returned no_payment_method_response
        /\ includes "No payment method found" no_payment_method_message = true)).
Proof.
  intros sgz key w body customerId priceId b0 customer r provider_get create_with
         customer_get listing_get customer_call
         Hkey Hcid Hcid_text Hpid Hpid_text Hcustomer Hnonnull Hno_error.
  assert (Hbody : nullish (Some body) = false).
  { destruct body; try reflexivity. discriminate Hcid. }
  subst r customer_call customer_get listing_get create_with provider_get.
  unfold default_payment_method in *.
  open_handlers. unfold stripe_get_request in *.
  run_step. rewrite Hkey. read_properties. run_step.
  rewrite Hcid, Hpid. cbn [truthy]. rewrite Hcid_text, Hpid_text.
  print_strings. rewrite Hcustomer. run_step.
  read_properties. run_step. rewrite Hno_error. run_step.
  read_properties. run_step.
  split.
  - intros paymentMethodId Hdefault Hpm_text. rewrite Hdefault.
    repeat (progress (cbn [truthy]; rewrite ?Hpm_text; run_step)).
    print_strings. explore; reflexivity.
  - intros Hdefault b1 pms Hlisting Hpms.
    rewrite Hdefault. print_strings. rewrite Hlisting. run_step.
    read_properties. run_step. split.
    + intros first rest id Hdata Hid Hid_text.
      assert (Hfirst : nullish (Some first) = false).
      { destruct first; try reflexivity. discriminate Hid. }
      rewrite Hdata. read_listing. rewrite Hid.
      repeat (progress (cbn [truthy]; rewrite ?Hid_text; run_step)).
      print_strings. explore; reflexivity.
    + intros [Hdata | [Hdata | (first & rest & Hdata & Hfirst & Hid)]];
        rewrite Hdata; read_listing;
        try rewrite Hdefault; try rewrite Hid; run_step;
        (split; [reflexivity | split; [reflexivity | vm_compute; reflexivity]]).
Qed.

Lemma C2_payment_method_resolution_witness :
  outcome
    (run (mk_world
            (fun n _ =>
               match n with
               | O => Resolved {| ok := true;
                                  parsed := Some (JObj [("id", JStr "cus_1")]) |}
               | S _ => Resolved {| ok := true;
                                    parsed := Some (JObj [("object", JStr "list");
                                                          ("data", JArr [])]) |}
               end)
            EmptyString (fun _ => None))
       (create_subscription (fun _ => false) "sk_test"
          (mk_request "POST"
             (Some (JObj [("customerId", JStr "cus_1");
                          ("priceId", JStr "price_1")])))))
  = Returned no_payment_method_response.
Proof.
  destruct (C2_payment_method_resolution (fun _ => false) "sk_test"
              (mk_world
                 (fun n _ =>
                    match n with
                    | O => Resolved {| ok := true;
                                       parsed := Some (JObj [("id", JStr "cus_1")]) |}
                    | S _ => Resolved {| ok := true;
                                         parsed := Some (JObj [("object", JStr "list");
                                                               ("data", JArr [])]) |}
                    end)
                 EmptyString (fun _ => None))
              (JObj [("customerId", JStr "cus_1"); ("priceId", JStr "price_1")])
              "cus_1" "price_1"
              true (JObj [("id", JStr "cus_1")])
              eq_refl eq_refl eq_refl eq_refl eq_refl eq_refl eq_refl eq_refl)
    as [_ Hlisting].
  destruct (Hlisting eq_refl true
              (JObj [("object", JStr "list"); ("data", JArr [])])
              eq_refl eq_refl)
    as [_ Hnone].
  destruct (Hnone (or_intror (or_introl eq_refl))) as (_ & Houtcome & _).
  exact Houtcome.
Defined.

(** C1.  The listing of payment methods is the one call of
    create-subscription whose reply is not searched for an [error]: the
    handler reads only its [data].  On a POST with the secret set, a
    [customerId] and a [priceId] that are non-empty strings, a customer
    without error and without default payment method, and a listing that
    answers a mapping with a truthy [error] and no [data] (such as
    {error: {message: Rate limit exceeded}}): the run makes the two calls
    and no third, and the handler answers 400 with the message of a customer
    without payment method, not a 502 with the provider's message. *)
Theorem C1_listing_error_is_answered_400 :
  forall (sgz : string -> bool) (key : string) (w : world) (body : Json)
         (customerId priceId : string) (b0 b1 : bool) (customer pms : Json),
    let r := run w (create_subscription sgz key (mk_request "POST" (Some body))) in
    let provider_get (path : string) :=
      {| url := "https://api.stripe.com/v1/" ++ path;
         http_method := "GET";
         req_headers := [ ("Authorization", "Bearer " ++ key) ];
         body := NoBody |} in
    let customer_get := provider_get ("customers/" ++ customerId) in
    let listing_get :=
      provider_get ("payment_methods?customer=" ++ customerId ++ "&type=card") in
    is_empty key = false ->
    property body "customerId" = Some (JStr customerId) ->
    is_empty customerId = false ->
    property body "priceId" = Some (JStr priceId) ->
    is_empty priceId = false ->
    upstream w 0 customer_get = Resolved {| ok := b0; parsed := Some customer |} ->
    nullish (Some customer) = false ->
    truthy (property customer "error") = false ->
    truthy (default_payment_method customer) = false ->
    upstream w 1 listing_get = Resolved {| ok := b1; parsed := Some pms |} ->
    truthy (property pms "error") = true ->
    property pms "data" = None ->
    fetched r
    = [ (customer_get, Resolved {| ok := b0; parsed := Some customer |});
        (listing_get, Resolved {| ok := b1; parsed := Some pms |}) ]
    /\ outcome r = Returned no_payment_method_response
    /\ forall message : Json,
         outcome r <> Returned (error_response 502 message).
Proof.
  intros sgz key w body customerId priceId b0 b1 customer pms r provider_get
         customer_get listing_get
         Hkey Hcid Hcid_text Hpid Hpid_text Hcustomer Hnonnull Hno_error
         Hdefault Hlisting Herror Hdata.
  assert (Hbody : nullish (Some body) = false).
  { destruct body; try reflexivity. discriminate Hcid. }
  assert (Hpms : nullish (Some pms) = false).
  { destruct pms; try reflexivity. discriminate Herror. }
  assert (Hrun : fetched r
                 = [ (customer_get, Resolved {| ok := b0; parsed := Some customer |});
                     (listing_get, Resolved {| ok := b1; parsed := Some pms |}) ]
                 /\ outcome r = Returned no_payment_method_response).
  { subst r customer_get listing_get provider_get.
    unfold default_payment_method in *.
    open_handlers. unfold stripe_get_request in *.
    run_step. rewrite Hkey. read_properties. run_step.
    rewrite Hcid, Hpid. cbn [truthy]. rewrite Hcid_text, Hpid_text.
    print_strings. rewrite Hcustomer. run_step.
    read_properties. run_step. rewrite Hno_error. run_step.
    read_properties. run_step.
    rewrite Hdefault. print_strings. rewrite Hlisting. run_step.
    read_properties. run_step.
    rewrite Hdata. read_listing. rewrite Hdefault. run_step.
    split; reflexivity. }
  destruct Hrun as [Hfetched Houtcome].
  split; [exact Hfetched | split; [exact Houtcome | ]].
  intros message Hreported. rewrite Houtcome in Hreported.
  apply returned_eq in Hreported.
  apply (f_equal status) in Hreported. discriminate Hreported.
Qed.

Lemma C1_listing_error_is_answered_400_witness :
  outcome
    (run (mk_world
            (fun n _ =>
               match n with
               | O => Resolved {| ok := true;
                                  parsed := Some (JObj [("id", JStr "cus_1")]) |}
               | S _ => Resolved
                   {| ok := false;
                      parsed := Some (JObj
                        [("error", JObj [("message", JStr "Rate limit exceeded")])]) |}
               end)
            EmptyString (fun _ => None))
       (create_subscription (fun _ => false) "sk_test"
          (mk_request "POST"
             (Some (JObj [("customerId", JStr "cus_1");
                          ("priceId", JStr "price_1")])))))
  = Returned no_payment_method_response.
Proof.
  apply (C1_listing_error_is_answered_400 (fun _ => false) "sk_test"
           (mk_world
              (fun n _ =>
                 match n with
                 | O => Resolved {| ok := true;
                                    parsed := Some (JObj [("id", JStr "cus_1")]) |}
                 | S _ => Resolved
                     {| ok := false;
                        parsed := Some (JObj
                          [("error", JObj [("message", JStr "Rate limit exceeded")])]) |}
                 end)
              EmptyString (fun _ => None))
           (JObj [("customerId", JStr "cus_1"); ("priceId", JStr "price_1")])
           "cus_1" "price_1" true false
           (JObj [("id", JStr "cus_1")])
           (JObj [("error", JObj [("message", JStr "Rate limit exceeded")])])
           eq_refl eq_refl eq_refl eq_refl eq_refl eq_refl eq_refl eq_refl
           eq_refl eq_refl eq_refl eq_refl).
Defined.

Ltac split_on_reply :=
  match goal with
  | H : _ \/ _ |- _ => destruct H
  | H : nth_error [] ?i = Some _ |- _ => destruct i; discriminate H
  | H : nth_error (_ :: _) ?i = Some _ |- _ => destruct i
  | H : Some _ = Some _ |- _ => apply some_eq in H
  | H : Resolved _ = Resolved ?res |- _ =>
      is_var res; apply resolved_record in H; subst res
  | H : Resolved ?res = Resolved _ |- _ =>
      is_var res; symmetry in H; apply resolved_record in H; subst res
  | H : Resolved _ = Resolved _ |- _ =>
      apply resolved_eq in H; destruct H; subst
  | H : ?x = ?y |- _ => is_var y; subst y
  | H : truthy ?a = true |- context [nullish ?a] =>
      rewrite (truthy_not_nullish a H) in *
  | N : nullish (Some ?j) = true, H : truthy (property ?j ?k) = true |- _ =>
      destruct (null_has_no_truthy_property j k N H)
  | _ => rewrite get_opt_property_of in *
  | _ => rewrite get_value in *
  | _ => split_on_scrutinee
  end.

Ltac explore_replies :=
  repeat (run_step;
          cbn [property_of nth_error Nat.eqb length
               http_method stripe_get_request stripe_post_request] in *;
          try discriminate; try split_on_reply).

(* ================================================================== *)
(** ** Further properties of the functions *)
(* ================================================================== *)

(** *** The request gate of the four functions *)

(** X1.  A POST to a function whose secret is unset gets status 500 with
    the body {error: Server configuration error}, whatever the request
    body is (unparsable included); one line naming the secret is logged and
    nothing is fetched. *)
Theorem missing_secret_is_a_configuration_error :
  forall (sgz : string -> bool) (h : handler) (env : environment) (w : world)
         (body : option Json),
    is_empty (secret_of h env) = true ->
    run w (serve sgz h env (mk_request "POST" body))
    = {| fetched := [];
         logged := [ [LogStr (secret_name h ++ " is not set")] ];
         stored := [];
         outcome := Returned
           {| status := 500;
              headers := json_headers;
              payload := Some (error_text "Server configuration error") |} |}.
Proof.
  intros sgz h env w body Hkey.
  destruct h; open_handlers; run_step; rewrite Hkey; reflexivity.
Qed.

Lemma missing_secret_is_a_configuration_error_witness :
  run (replies [])
    (serve (fun _ => false) CreateSubscription
       (mk_environment EmptyString "re_test") (mk_request "POST" None))
  = {| fetched := [];
       logged := [ [LogStr "STRIPE_SECRET_KEY is not set"] ];
       stored := [];
       outcome := Returned
         {| status := 500;
            headers := json_headers;
            payload := Some (error_text "Server configuration error") |} |}.
Proof.
  apply (missing_secret_is_a_configuration_error (fun _ => false) CreateSubscription
           (mk_environment EmptyString "re_test") (replies []) None).
  reflexivity.
Defined.

(** X2.  A POST with the secret set and a body that is not JSON gets status
    400 with the body {error: Invalid JSON body}; nothing is fetched or
    logged. *)
Theorem unparsable_body_is_a_400 :
  forall (sgz : string -> bool) (h : handler) (env : environment) (w : world),
    is_empty (secret_of h env) = false ->
    run w (serve sgz h env (mk_request "POST" None))
    = silently (Returned {| status := 400;
                            headers := json_headers;
                            payload := Some (error_text "Invalid JSON body") |}).
Proof.
  intros sgz h env w Hkey.
  destruct h; open_handlers; run_step; rewrite Hkey; reflexivity.
Qed.

Lemma unparsable_body_is_a_400_witness :
  run (replies [])
    (serve (fun _ => false) SendEmail
       (mk_environment EmptyString "re_test") (mk_request "POST" None))
  = silently (Returned {| status := 400;
                          headers := json_headers;
                          payload := Some (error_text "Invalid JSON body") |}).
Proof.
  apply (unparsable_body_is_a_400 (fun _ => false) SendEmail
           (mk_environment EmptyString "re_test") (replies [])).
  reflexivity.
Defined.

(** X3.  Whatever the request and whatever the upstream does, a response
    of any of the four functions is either the pre-flight response or one
    built by [json]; in both cases its first three headers are the CORS
    headers. *)
Theorem every_response_carries_the_cors_headers :
  forall (sgz : string -> bool) (h : handler) (env : environment)
         (req : request) (w : world),
    match outcome (run w (serve sgz h env req)) with
    | Returned resp =>
        firstn 3 (headers resp) = CORS_HEADERS
        /\ (resp = preflight_response
            \/ exists (data : list (string * value)) (code : Z),
                 resp = json data code)
    | Threw _ => True
    end.
Proof.
  intros sgz h env req w.
  destruct h; open_handlers; explore;
    first [ exact I
          | split; [reflexivity | left; reflexivity]
          | split; [reflexivity | right; eexists; eexists; reflexivity] ].
Qed.

(** X4.  The status of a response is one of 200, 204, 400, 405, 500, 502,
    and for create-subscription also 404; no other function answers 404. *)
Theorem status_is_one_of_the_documented :
  forall (sgz : string -> bool) (h : handler) (env : environment)
         (req : request) (w : world),
    match outcome (run w (serve sgz h env req)) with
    | Returned resp => In (status resp) (statuses h)
    | Threw _ => True
    end.
Proof.
  intros sgz h env req w.
  destruct h; open_handlers; explore;
    first [ exact I
          | cbn [status json preflight_response statuses In];
            repeat first [ left; reflexivity | right ] ].
Qed.

(** *** What the functions send upstream *)

Lemma starts_with_append :
  forall prefix rest : string, starts_with prefix (prefix ++ rest) = true.
Proof.
  induction prefix as [ | c prefix IH]; intro rest; cbn [starts_with String.append].
  - reflexivity.
  - rewrite Ascii.eqb_refl. apply IH.
Qed.

(** X5.  In any run, a function makes at most two (create-setup-intent),
    three (create-subscription) or one (the other two) fetches; each goes
    to its provider (a URL under https://api.stripe.com/v1/, or
    https://api.resend.com/emails) and carries the function's secret as
    bearer credential, which is then not empty. *)
Theorem fetches_go_to_the_provider_with_the_secret :
  forall (sgz : string -> bool) (h : handler) (env : environment)
         (req : request) (w : world),
    (length (fetched (run w (serve sgz h env req))) <= max_fetches h)%nat
    /\ forall (rq : fetch_req) (o : fetch_outcome),
         In (rq, o) (fetched (run w (serve sgz h env req))) ->
         starts_with (provider_base h) (url rq) = true
         /\ In ("Authorization", "Bearer " ++ secret_of h env) (req_headers rq)
         /\ is_empty (secret_of h env) = false.
Proof.
  intros sgz h env req w. split.
  - destruct h; open_handlers; explore; cbn [length max_fetches]; lia.
  - intros rq o Hin.
    destruct h; open_handlers; explore;
      cbn [provider_base url req_headers stripe_get_request stripe_post_request
           resend_request secret_of];
      (split; [ first [ apply starts_with_append | reflexivity ]
              | split; [ left; reflexivity | first [assumption | reflexivity] ] ]).
Qed.

Lemma fetches_go_to_the_provider_with_the_secret_witness :
  starts_with "https://api.stripe.com/v1/"
    (url (stripe_post_request "sk_test" "billing_portal/sessions"
            [("customer", Some (JStr "cus_1"));
             ("return_url", Some (JStr "https://4fore.golf/account"))])) = true
  /\ In ("Authorization", "Bearer sk_test")
       (req_headers (stripe_post_request "sk_test" "billing_portal/sessions"
            [("customer", Some (JStr "cus_1"));
             ("return_url", Some (JStr "https://4fore.golf/account"))]))
  /\ is_empty "sk_test" = false.
Proof.
  apply (proj2 (fetches_go_to_the_provider_with_the_secret (fun _ => false)
                  CreatePortalSession (mk_environment "sk_test" EmptyString)
                  (mk_request "POST"
                     (Some (JObj [("customerId", JStr "cus_1");
                                  ("returnUrl", JStr "https://4fore.golf/account")])))
                  (replies [JObj [("url", JStr "https://billing.stripe.com/s/1")]]))
           _ (Resolved {| ok := true;
                          parsed := Some (JObj [("url", JStr "https://billing.stripe.com/s/1")]) |})).
  vm_compute. left. reflexivity.
Defined.

(** *** When a function answers nothing *)

(** X6.  A POST with the secret set whose body is the JSON text [null]
    makes each of the four functions throw a TypeError while it takes the
    fields out of the body, outside the [try]: no response is built and
    nothing is fetched. *)
Theorem null_body_throws :
  forall (sgz : string -> bool) (h : handler) (env : environment) (w : world),
    is_empty (secret_of h env) = false ->
    run w (serve sgz h env (mk_request "POST" (Some JNull)))
    = silently (Threw (TypeError (fst (required_fields h)))).
Proof.
  intros sgz h env w Hkey.
  destruct h; open_handlers; run_step; rewrite Hkey; reflexivity.
Qed.

Lemma null_body_throws_witness :
  run (replies [])
    (serve (fun _ => false) CreateSetupIntent
       (mk_environment "sk_test" EmptyString) (mk_request "POST" (Some JNull)))
  = silently (Threw (TypeError "email")).
Proof.
  apply (null_body_throws (fun _ => false) CreateSetupIntent
           (mk_environment "sk_test" EmptyString) (replies [])).
  reflexivity.
Defined.

Lemma ToString_prints :
  forall v : value, prints v = true -> ToString v = Ok (to_str v).
Proof.
  intros [j | ] H; [ | reflexivity].
  unfold prints in H. apply negb_true_iff in H.
  unfold ToString. rewrite H. reflexivity.
Qed.

Lemma buildEmail_raises :
  forall (type to data : value) (e : exn),
    buildEmail type to data = Raise e ->
    nullish data = true \/ name_prints data = false.
Proof.
  intros type to data e H.
  destruct (nullish data) eqn:Hdata; [left; reflexivity | right].
  destruct (name_prints data) eqn:Hname; [ | reflexivity].
  destruct (recognized type) eqn:Hty.
  - destruct (buildEmail_recognized type to data Hdata Hname Hty) as (s & h & Hsome).
    rewrite Hsome in H. discriminate H.
  - rewrite (buildEmail_unrecognized type to data Hdata Hty) in H. discriminate H.
Qed.

(** X7.  A function throws only in these cases: the body is the JSON text
    [null]; or, for send-email, the body has [data: null], or its [type] or
    the name in its [data] has no string form (an object with a [toString]
    entry cannot be put into a template or a message).  In every other
    case, whatever the upstream does, the run ends with a response. *)
Theorem a_response_unless_null :
  forall (sgz : string -> bool) (h : handler) (env : environment)
         (req : request) (w : world),
    null_body req = false ->
    (h = SendEmail -> null_data req = false /\ email_prints req = true) ->
    exists resp : response,
      outcome (run w (serve sgz h env req)) = Returned resp.
Proof.
  intros sgz h env req w Hbody Hdata.
  unfold null_body, null_data, email_prints in *.
  destruct h;
    [ clear Hdata | clear Hdata | clear Hdata
    | destruct (Hdata eq_refl) as [Hnull Hprints]; clear Hdata ];
    open_handlers;
    repeat (run_step; cbn [property_of] in *; try discriminate;
            first [ rewrite get_opt_property_of in *
                  | rewrite get_value in *
                  | match goal with
                    | H : nullish (Some ?j) = true |- _ =>
                        apply nullish_some_null in H; subst j
                    | H : (_ && _)%bool = true |- _ =>
                        apply andb_true_iff in H; destruct H
                    | H : prints ?v = true |- context [ToString ?v] =>
                        rewrite (ToString_prints v H) in *
                    | H : buildEmail _ _ _ = Raise _ |- _ =>
                        apply buildEmail_raises in H; destruct H
                    | H : name_prints ?d = true, H' : name_prints ?d = false |- _ =>
                        rewrite H in H'; discriminate H'
                    | H : nullish (default_data ?d) = true |- _ =>
                        destruct d as [[ | | | | | ] | ]; try discriminate H
                    | H : truthy ?a = true |- context [nullish ?a] =>
                        rewrite (truthy_not_nullish a H) in *
                    end
                  | split_on_scrutinee ]);
    try (eexists; reflexivity).
Qed.

Lemma a_response_unless_null_witness :
  exists resp : response,
    outcome
      (run (replies [])
         (serve (fun _ => false) SendEmail (mk_environment EmptyString "re_test")
            (mk_request "POST"
               (Some (JObj [("type", JStr "welcome"); ("to", JStr "a@b.com");
                            ("data", JStr "no mapping")])))))
    = Returned resp.
Proof.
  apply (a_response_unless_null (fun _ => false) SendEmail
           (mk_environment EmptyString "re_test")
           (mk_request "POST"
              (Some (JObj [("type", JStr "welcome"); ("to", JStr "a@b.com");
                           ("data", JStr "no mapping")])))
           (replies []) eq_refl (fun _ => conj eq_refl eq_refl)).
Defined.

(** X8.  A POST to send-email with the secret set, truthy [type] and [to]
    and [data: null] makes the handler throw a TypeError when the template
    renderer reads [data.name], before the [try]: no response is built and
    nothing is fetched, whether or not the template identifier is known. *)
Theorem null_data_throws :
  forall (key : string) (w : world) (body : Json),
    is_empty key = false ->
    truthy (property body "type") = true ->
    truthy (property body "to") = true ->
    property body "data" = Some JNull ->
    run w (send_email key (mk_request "POST" (Some body)))
    = silently (Threw (TypeError "name")).
Proof.
  intros key w body Hkey Htype Hto Hdata.
  assert (Hbody : nullish (Some body) = false).
  { destruct body; try reflexivity. discriminate Htype. }
  open_handlers. run_step. rewrite Hkey.
  rewrite !get_property by assumption. run_step.
  rewrite Htype, Hto, Hdata. reflexivity.
Qed.

Lemma null_data_throws_witness :
  run (replies [])
    (send_email "re_test"
       (mk_request "POST"
          (Some (JObj [("type", JStr "welcome"); ("to", JStr "a@b.com");
                       ("data", JNull)]))))
  = silently (Threw (TypeError "name")).
Proof.
  apply (null_data_throws "re_test" (replies [])
           (JObj [("type", JStr "welcome"); ("to", JStr "a@b.com"); ("data", JNull)]));
    reflexivity.
Defined.

(** *** The secret does not reach the caller *)

(** X9.  Against an upstream whose replies do not depend on the request,
    the response and the log lines of a function are the same for any two
    non-empty values of its secret: neither carries the secret. *)
Theorem response_does_not_depend_on_the_secret :
  forall (sgz : string -> bool) (h : handler) (env1 env2 : environment)
         (req : request) (reply : nat -> fetch_outcome),
    is_empty (secret_of h env1) = false ->
    is_empty (secret_of h env2) = false ->
    outcome (run (scripted reply) (serve sgz h env1 req))
    = outcome (run (scripted reply) (serve sgz h env2 req))
    /\ logged (run (scripted reply) (serve sgz h env1 req))
       = logged (run (scripted reply) (serve sgz h env2 req)).
Proof.
  intros sgz h env1 env2 req reply Hkey1 Hkey2.
  destruct h; open_handlers; run_step; rewrite Hkey1, Hkey2;
    repeat (run_step; cbn [upstream scripted] in *; try discriminate;
            try split_on_scrutinee);
    split; reflexivity.
Qed.

Lemma response_does_not_depend_on_the_secret_witness :
  outcome
    (run (scripted (fun _ => Resolved
            {| ok := true;
               parsed := Some (JObj [("url", JStr "https://billing.stripe.com/s/1")]) |}))
       (serve (fun _ => false) CreatePortalSession
          (mk_environment "sk_test_1" EmptyString)
          (mk_request "POST"
             (Some (JObj [("customerId", JStr "cus_1");
                          ("returnUrl", JStr "https://4fore.golf/account")])))))
  = outcome
      (run (scripted (fun _ => Resolved
              {| ok := true;
                 parsed := Some (JObj [("url", JStr "https://billing.stripe.com/s/1")]) |}))
         (serve (fun _ => false) CreatePortalSession
            (mk_environment "sk_live_2" EmptyString)
            (mk_request "POST"
               (Some (JObj [("customerId", JStr "cus_1");
                            ("returnUrl", JStr "https://4fore.golf/account")]))))).
Proof.
  apply (response_does_not_depend_on_the_secret (fun _ => false) CreatePortalSession
           (mk_environment "sk_test_1" EmptyString)
           (mk_environment "sk_live_2" EmptyString));
    reflexivity.
Defined.

(** *** create-setup-intent *)

(** X10.  On a POST to create-setup-intent with the secret set and an
    [email] and a [userId] that are non-empty strings, when both upstream
    calls answer mappings without a truthy [error] and the customer's [id]
    is a string, the handler makes exactly two calls: a POST to customers
    whose form carries the email and, under metadata[supabase_uid], the
    user id; then a POST to setup_intents whose form carries the [id] of
    the customer just created, usage off_session and automatic payment
    methods enabled.  It logs nothing and answers 200 with the setup
    intent's [client_secret] and the customer's [id]. *)
Theorem create_setup_intent_chains_customer_and_intent :
  forall (key : string) (w : world) (body : Json) (email userId : string)
         (b0 b1 : bool) (customer setupIntent : Json) (customer_id : string),
    let provider_post (path : string) (form : list (string * string)) :=
      {| url := "https://api.stripe.com/v1/" ++ path;
         http_method := "POST";
         req_headers :=
           [ ("Authorization", "Bearer " ++ key);
             ("Content-Type", "application/x-www-form-urlencoded") ];
         body := FormBody form |} in
    let create_customer :=
      provider_post "customers"
        [ ("email", email); ("metadata[supabase_uid]", userId) ] in
    let create_intent :=
      provider_post "setup_intents"
        [ ("customer", customer_id);
          ("usage", "off_session");
          ("automatic_payment_methods[enabled]", "true") ] in
    is_empty key = false ->
    property body "email" = Some (JStr email) ->
    is_empty email = false ->
    property body "userId" = Some (JStr userId) ->
    is_empty userId = false ->
    upstream w 0 create_customer
    = Resolved {| ok := b0; parsed := Some customer |} ->
    truthy (property customer "error") = false ->
    property customer "id" = Some (JStr customer_id) ->
    upstream w 1 create_intent
    = Resolved {| ok := b1; parsed := Some setupIntent |} ->
    nullish (Some setupIntent) = false ->
    truthy (property setupIntent "error") = false ->
    run w (create_setup_intent key (mk_request "POST" (Some body)))
    = {| fetched :=
           [ (create_customer, Resolved {| ok := b0; parsed := Some customer |});
             (create_intent, Resolved {| ok := b1; parsed := Some setupIntent |}) ];
         logged := [];
         stored := [];
         outcome := Returned
           (json [ ("clientSecret", property setupIntent "client_secret");
                   ("customerId", Some (JStr customer_id)) ] 200) |}.
Proof.
  intros key w body email userId b0 b1 customer setupIntent customer_id
         provider_post create_customer create_intent
         Hkey Hemail Hemail_text Huser Huser_text Hcustomer Hc_ok Hid
         Hintent Hi_nonnull Hi_ok.
  subst create_customer create_intent provider_post.
  assert (Hbody : nullish (Some body) = false).
  { destruct body; try reflexivity. discriminate Hemail. }
  assert (Hc_nonnull : nullish (Some customer) = false).
  { destruct customer; try reflexivity. discriminate Hid. }
  open_handlers. run_step. rewrite Hkey.
  read_properties. run_step. rewrite Hemail, Huser.
  cbn [truthy]. rewrite Hemail_text, Huser_text.
  print_strings. rewrite Hcustomer. run_step. read_properties. run_step.
  rewrite Hc_ok. run_step. read_properties. rewrite Hid.
  print_strings. rewrite Hintent. run_step. read_properties. run_step.
  rewrite Hi_ok. run_step. read_properties. reflexivity.
Qed.

Lemma create_setup_intent_chains_customer_and_intent_witness :
  run (replies [ JObj [("id", JStr "cus_1")];
                 JObj [("client_secret", JStr "seti_1_secret_x")] ])
    (create_setup_intent "sk_test"
       (mk_request "POST"
          (Some (JObj [("email", JStr "a@b.com"); ("userId", JStr "u1")]))))
  = {| fetched :=
         [ ({| url := "https://api.stripe.com/v1/customers";
               http_method := "POST";
               req_headers :=
                 [ ("Authorization", "Bearer sk_test");
                   ("Content-Type", "application/x-www-form-urlencoded") ];
               body := FormBody [ ("email", "a@b.com");
                                  ("metadata[supabase_uid]", "u1") ] |},
            Resolved {| ok := true; parsed := Some (JObj [("id", JStr "cus_1")]) |});
           ({| url := "https://api.stripe.com/v1/setup_intents";
               http_method := "POST";
               req_headers :=
                 [ ("Authorization", "Bearer sk_test");
                   ("Content-Type", "application/x-www-form-urlencoded") ];
               body := FormBody [ ("customer", "cus_1");
                                  ("usage", "off_session");
                                  ("automatic_payment_methods[enabled]", "true") ] |},
            Resolved {| ok := true;
                        parsed := Some (JObj [("client_secret", JStr "seti_1_secret_x")]) |}) ];
       logged := [];
       stored := [];
       outcome := Returned
         (json [ ("clientSecret", Some (JStr "seti_1_secret_x"));
                 ("customerId", Some (JStr "cus_1")) ] 200) |}.
Proof.
  apply (create_setup_intent_chains_customer_and_intent "sk_test"
           (replies [ JObj [("id", JStr "cus_1")];
                      JObj [("client_secret", JStr "seti_1_secret_x")] ])
           (JObj [("email", JStr "a@b.com"); ("userId", JStr "u1")])
           "a@b.com" "u1" true true
           (JObj [("id", JStr "cus_1")])
           (JObj [("client_secret", JStr "seti_1_secret_x")])
           "cus_1");
    reflexivity.
Defined.

(** X11.  In any run of create-setup-intent, a call whose reply is a
    mapping with a truthy [error] is the last call; the handler logs that
    error and answers 502 with the error's [message], or with
    [Failed to create customer] (first call) or
    [Failed to create setup intent] (second call) when there is none. *)
Theorem create_setup_intent_upstream_error_is_502 :
  forall (key : string) (req : request) (w : world)
         (i : nat) (rq : fetch_req) (b : bool) (j : Json),
    let r := run w (create_setup_intent key req) in
    nth_error (fetched r) i = Some (rq, Resolved {| ok := b; parsed := Some j |}) ->
    truthy (property j "error") = true ->
    length (fetched r) = S i
    /\ logged r
       = [ [ LogStr (if Nat.eqb i 0 then "Stripe customer error:"
                     else "Stripe setup_intent error:");
             LogVal (property j "error") ] ]
    /\ outcome r
       = Returned
           (error_response 502
              (coalesce (property_of (property j "error") "message")
                 (JStr (if Nat.eqb i 0 then "Failed to create customer"
                        else "Failed to create setup intent")))).
Proof.
  intros key req w i rq b j r Hcall Herror. subst r.
  open_handlers. explore_replies; repeat split; reflexivity.
Qed.

Lemma create_setup_intent_upstream_error_is_502_witness :
  outcome
    (run (replies [ JObj [("id", JStr "cus_1")];
                    JObj [("error", JObj [("type", JStr "api_error")])] ])
       (create_setup_intent "sk_test"
          (mk_request "POST"
             (Some (JObj [("email", JStr "a@b.com"); ("userId", JStr "u1")])))))
  = Returned (error_response 502 (JStr "Failed to create setup intent")).
Proof.
  apply (create_setup_intent_upstream_error_is_502 "sk_test"
           (mk_request "POST"
              (Some (JObj [("email", JStr "a@b.com"); ("userId", JStr "u1")])))
           (replies [ JObj [("id", JStr "cus_1")];
                      JObj [("error", JObj [("type", JStr "api_error")])] ])
           1%nat
           (setup_intent_request "sk_test" (Some (JStr "cus_1")))
           true
           (JObj [("error", JObj [("type", JStr "api_error")])])
           eq_refl eq_refl).
Defined.

(** *** create-portal-session *)

(** X12.  In any run of create-portal-session there is at most one call,
    and when it answers a mapping (not null) the response follows from it:
    502 with the error's [message] or [Failed to create portal session]
    when its [error] is truthy, otherwise 200 with its [url]. *)
Theorem create_portal_session_answers_from_the_reply :
  forall (key : string) (req : request) (w : world)
         (i : nat) (rq : fetch_req) (b : bool) (j : Json),
    let r := run w (create_portal_session key req) in
    nth_error (fetched r) i = Some (rq, Resolved {| ok := b; parsed := Some j |}) ->
    nullish (Some j) = false ->
    i = 0%nat
    /\ length (fetched r) = 1%nat
    /\ outcome r
       = Returned
           (if truthy (property j "error")
            then error_response 502
                   (coalesce (property_of (property j "error") "message")
                      (JStr "Failed to create portal session"))
            else json [ ("url", property j "url") ] 200).
Proof.
  intros key req w i rq b j r Hcall Hj. subst r.
  open_handlers.
  repeat (run_step;
          cbn [property_of nth_error Nat.eqb length] in *;
          try discriminate;
          first [ match goal with
                  | H : nullish (Some ?x) = false |- context [nullish (Some ?x)] =>
                      rewrite H in *
                  end
                | split_on_reply ]);
    repeat split; reflexivity.
Qed.

Lemma create_portal_session_answers_from_the_reply_witness :
  outcome
    (run (replies [ JObj [("url", JStr "https://billing.stripe.com/s/1")] ])
       (create_portal_session "sk_test"
          (mk_request "POST"
             (Some (JObj [("customerId", JStr "cus_1");
                          ("returnUrl", JStr "https://4fore.golf/account")])))))
  = Returned (json [ ("url", Some (JStr "https://billing.stripe.com/s/1")) ] 200).
Proof.
  apply (create_portal_session_answers_from_the_reply "sk_test"
           (mk_request "POST"
              (Some (JObj [("customerId", JStr "cus_1");
                           ("returnUrl", JStr "https://4fore.golf/account")])))
           (replies [ JObj [("url", JStr "https://billing.stripe.com/s/1")] ])
           0%nat
           (portal_session_request "sk_test" (Some (JStr "cus_1"))
              (Some (JStr "https://4fore.golf/account")))
           true
           (JObj [("url", JStr "https://billing.stripe.com/s/1")])
           eq_refl eq_refl).
Defined.

(** *** send-email *)

(** X13.  In any run of send-email there is at most one call, and when the
    delivery provider answers a mapping (not null) the response is decided
    by the HTTP status of that answer alone: 502 with the answer's
    [message] or [Failed to send email] when the status is not OK,
    otherwise 200 with the answer's [id], whether or not the answer has an
    [error] field. *)
Theorem send_email_answers_by_http_status :
  forall (key : string) (req : request) (w : world)
         (i : nat) (rq : fetch_req) (b : bool) (j : Json),
    let r := run w (send_email key req) in
    nth_error (fetched r) i = Some (rq, Resolved {| ok := b; parsed := Some j |}) ->
    nullish (Some j) = false ->
    i = 0%nat
    /\ length (fetched r) = 1%nat
    /\ outcome r
       = Returned
           (if b
            then json [ ("id", property j "id") ] 200
            else error_response 502
                   (coalesce (property j "message") (JStr "Failed to send email"))).
Proof.
  intros key req w i rq b j r Hcall Hj. subst r.
  open_handlers.
  repeat (run_step;
          cbn [property_of nth_error Nat.eqb length] in *;
          try discriminate;
          first [ match goal with
                  | H : nullish (Some ?x) = false |- context [nullish (Some ?x)] =>
                      rewrite H in *
                  | b : bool |- context [if ?c then _ else _] =>
                      is_var c; destruct c
                  end
                | split_on_reply ]);
    repeat split; reflexivity.
Qed.

Lemma send_email_answers_by_http_status_witness :
  outcome
    (run (scripted (fun _ => Resolved
            {| ok := true;
               parsed := Some (JObj [("id", JStr "msg_1");
                                     ("error", JStr "ignored")]) |}))
       (send_email "re_test"
          (mk_request "POST"
             (Some (JObj [("type", JStr "password-reset"); ("to", JStr "a@b.com")])))))
  = Returned (json [ ("id", Some (JStr "msg_1")) ] 200).
Proof.
  destruct (send_email_answers_by_http_status "re_test"
              (mk_request "POST"
                 (Some (JObj [("type", JStr "password-reset"); ("to", JStr "a@b.com")])))
              (scripted (fun _ => Resolved
                 {| ok := true;
                    parsed := Some (JObj [("id", JStr "msg_1");
                                          ("error", JStr "ignored")]) |}))
              0%nat _ true
              (JObj [("id", JStr "msg_1"); ("error", JStr "ignored")])
              eq_refl eq_refl)
    as (_ & _ & Houtcome).
  exact Houtcome.
Defined.

(** *** create-subscription *)

(** X14.  In any run of create-subscription, when the subscription
    creation (the POST) answers a mapping (not null) without a truthy
    [error], it is the last call and the handler answers 200 with
    [subscriptionId] (the answer's [id]) and [status] (the answer's
    [status]). *)
Theorem create_subscription_success_envelope :
  forall (sgz : string -> bool) (key : string) (req : request) (w : world)
         (i : nat) (rq : fetch_req) (b : bool) (j : Json),
    let r := run w (create_subscription sgz key req) in
    nth_error (fetched r) i = Some (rq, Resolved {| ok := b; parsed := Some j |}) ->
    http_method rq = "POST" ->
    nullish (Some j) = false ->
    truthy (property j "error") = false ->
    length (fetched r) = S i
    /\ outcome r
       = Returned (json [ ("subscriptionId", property j "id");
                          ("status", property j "status") ] 200).
Proof.
  intros sgz key req w i rq b j r Hcall Hpost Hj Hok. subst r.
  open_handlers.
  repeat (run_step;
          cbn [property_of nth_error Nat.eqb length
               http_method stripe_get_request stripe_post_request] in *;
          try discriminate;
          first [ match goal with
                  | H : nullish (Some ?x) = false |- context [nullish (Some ?x)] =>
                      rewrite H in *
                  | H : nullish (Some ?x) = false, H' : context [nullish (Some ?x)] |- _ =>
                      rewrite H in H'
                  end
                | split_on_reply ]);
    split; reflexivity.
Qed.

Lemma create_subscription_success_envelope_witness :
  outcome
    (run (replies [ JObj [("id", JStr "cus_1");
                          ("invoice_settings",
                           JObj [("default_payment_method", JStr "pm_1")])];
                    JObj [("id", JStr "sub_1"); ("status", JStr "incomplete")] ])
       (create_subscription (fun _ => false) "sk_test"
          (mk_request "POST"
             (Some (JObj [("customerId", JStr "cus_1");
                          ("priceId", JStr "price_1")])))))
  = Returned (json [ ("subscriptionId", Some (JStr "sub_1"));
                     ("status", Some (JStr "incomplete")) ] 200).
Proof.
  apply (create_subscription_success_envelope (fun _ => false) "sk_test"
           (mk_request "POST"
              (Some (JObj [("customerId", JStr "cus_1"); ("priceId", JStr "price_1")])))
           (replies [ JObj [("id", JStr "cus_1");
                            ("invoice_settings",
                             JObj [("default_payment_method", JStr "pm_1")])];
                      JObj [("id", JStr "sub_1"); ("status", JStr "incomplete")] ])
           1%nat
           (subscription_request "sk_test" (Some (JStr "cus_1"))
              (Some (JStr "price_1")) (Some (JStr "pm_1")))
           true
           (JObj [("id", JStr "sub_1"); ("status", JStr "incomplete")])
           eq_refl eq_refl eq_refl eq_refl).
Defined.

(** X15.  In any run of create-subscription whose second call is the
    listing of payment methods: when the listing answers a mapping whose
    [data] is an array that starts with [null], reading the [id] of that
    element throws inside the [try], and the handler answers 500 with the
    body {error: Internal server error} without calling subscription
    creation. *)
Theorem create_subscription_null_listed_method_is_500 :
  forall (sgz : string -> bool) (key : string) (req : request) (w : world)
         (rq : fetch_req) (b : bool) (pms : Json) (rest : list Json),
    let r := run w (create_subscription sgz key req) in
    nth_error (fetched r) 1 = Some (rq, Resolved {| ok := b; parsed := Some pms |}) ->
    http_method rq = "GET" ->
    property pms "data" = Some (JArr (JNull :: rest)) ->
    length (fetched r) = 2%nat
    /\ outcome r = Returned internal_server_error.
Proof.
  intros sgz key req w rq b pms rest r Hcall Hget Hdata. subst r.
  assert (Hpms : nullish (Some pms) = false).
  { destruct pms; try reflexivity. discriminate Hdata. }
  open_handlers.
  repeat (run_step;
          cbn [property_of nth_error Nat.eqb length
               http_method stripe_get_request stripe_post_request] in *;
          try discriminate;
          first [ match goal with
                  | H : nullish (Some ?x) = false |- context [nullish (Some ?x)] =>
                      rewrite H in *
                  | H : property ?x ?k = _ |- context [property ?x ?k] =>
                      rewrite H in *;
                      cbn [property String.eqb Ascii.eqb Bool.eqb gt_zero length
                           Z.of_nat Z.ltb Z.compare get_first hd_error nullish] in *
                  end
                | split_on_reply ]);
    split; reflexivity.
Qed.

Lemma create_subscription_null_listed_method_is_500_witness :
  outcome
    (run (replies [ JObj [("id", JStr "cus_1")];
                    JObj [("data", JArr [JNull])] ])
       (create_subscription (fun _ => false) "sk_test"
          (mk_request "POST"
             (Some (JObj [("customerId", JStr "cus_1");
                          ("priceId", JStr "price_1")])))))
  = Returned internal_server_error.
Proof.
  apply (create_subscription_null_listed_method_is_500 (fun _ => false) "sk_test"
           (mk_request "POST"
              (Some (JObj [("customerId", JStr "cus_1"); ("priceId", JStr "price_1")])))
           (replies [ JObj [("id", JStr "cus_1")]; JObj [("data", JArr [JNull])] ])
           (payment_methods_request "sk_test" (Some (JStr "cus_1")))
           true
           (JObj [("data", JArr [JNull])]) []
           eq_refl eq_refl eq_refl).
Defined.

(** X28.  In any run of create-subscription: when the customer fetch (the
    first call) or the subscription creation (the POST) answers a mapping
    whose [error] is truthy, that call is the last one of the run and the
    handler returns status 404 for the customer fetch, 502 for the
    subscription creation, with the error's [message] when it has one and
    otherwise the fallback text. *)
Theorem create_subscription_reported_errors :
  forall (sgz : string -> bool) (key : string) (req : request) (w : world)
         (i : nat) (rq : fetch_req) (b : bool) (j : Json),
    let r := run w (create_subscription sgz key req) in
    nth_error (fetched r) i = Some (rq, Resolved {| ok := b; parsed := Some j |}) ->
    truthy (property j "error") = true ->
    i = 0%nat \/ http_method rq = "POST" ->
    length (fetched r) = S i
    /\ outcome r
       = Returned
           (error_response
              (if Nat.eqb i 0 then 404 else 502)
              (coalesce (property_of (property j "error") "message")
                 (JStr (if Nat.eqb i 0 then "Customer not found"
                        else "Failed to create subscription")))).
Proof.
  intros sgz key req w i rq b j r Hcall Herror Hwhich. subst r.
  open_handlers. explore_replies; split; reflexivity.
Qed.

Lemma create_subscription_reported_errors_witness :
  length
    (fetched
       (run (mk_world
               (fun _ _ => Resolved
                  {| ok := false;
                     parsed := Some (JObj
                       [("error", JObj [("message", JStr "No such customer: cus_x")])]) |})
               EmptyString (fun _ => None))
          (create_subscription (fun _ => false) "sk_test"
             (mk_request "POST"
                (Some (JObj [("customerId", JStr "cus_x");
                             ("priceId", JStr "price_1")]))))))
  = 1%nat
  /\
  outcome
    (run (mk_world
            (fun _ _ => Resolved
               {| ok := false;
                  parsed := Some (JObj
                    [("error", JObj [("message", JStr "No such customer: cus_x")])]) |})
            EmptyString (fun _ => None))
       (create_subscription (fun _ => false) "sk_test"
          (mk_request "POST"
             (Some (JObj [("customerId", JStr "cus_x");
                          ("priceId", JStr "price_1")])))))
  = Returned (error_response 404 (JStr "No such customer: cus_x")).
Proof.
  apply (create_subscription_reported_errors (fun _ => false) "sk_test"
           (mk_request "POST"
              (Some (JObj [("customerId", JStr "cus_x"); ("priceId", JStr "price_1")])))
           (mk_world
              (fun _ _ => Resolved
                 {| ok := false;
                    parsed := Some (JObj
                      [("error", JObj [("message", JStr "No such customer: cus_x")])]) |})
              EmptyString (fun _ => None))
           0%nat
           (customer_request "sk_test" (Some (JStr "cus_x")))
           false
           (JObj [("error", JObj [("message", JStr "No such customer: cus_x")])])
           eq_refl eq_refl (or_introl eq_refl)).
Defined.

(** *** What the templates do with the context *)

Lemma starts_with_append_l :
  forall needle s rest : string,
    starts_with needle s = true -> starts_with needle (s ++ rest) = true.
Proof.
  induction needle as [ | c needle IH]; intros s rest H.
  - reflexivity.
  - destruct s as [ | d s]; [discriminate H | ].
    cbn [starts_with String.append] in *.
    apply andb_true_iff in H. destruct H as [Hc Hrest].
    rewrite Hc. apply IH. assumption.
Qed.

Lemma includes_append_l :
  forall needle s rest : string,
    includes needle s = true -> includes needle (s ++ rest) = true.
Proof.
  intros needle s. induction s as [ | d s IH]; intros rest H.
  - cbn [includes] in H. rewrite orb_false_r in H.
    destruct needle; [ | discriminate H].
    destruct (EmptyString ++ rest); reflexivity.
  - cbn [includes String.append] in *.
    apply orb_true_iff in H. destruct H as [H | H].
    + apply (starts_with_append_l needle (String d s) rest) in H.
      cbn [String.append] in H. rewrite H. reflexivity.
    + rewrite (IH rest H). apply orb_true_r.
Qed.

Lemma includes_append_r :
  forall needle s rest : string,
    includes needle rest = true -> includes needle (s ++ rest) = true.
Proof.
  intros needle s. induction s as [ | d s IH]; intros rest H.
  - exact H.
  - cbn [includes String.append]. rewrite (IH rest H). apply orb_true_r.
Qed.

Lemma starts_with_self :
  forall s : string, starts_with s s = true.
Proof.
  induction s as [ | c s IH]; cbn [starts_with].
  - reflexivity.
  - rewrite Ascii.eqb_refl. exact IH.
Qed.

Lemma includes_self :
  forall s : string, includes s s = true.
Proof.
  intro s. destruct s as [ | c s]; cbn [includes].
  - reflexivity.
  - rewrite (starts_with_self (String c s)). reflexivity.
Qed.

Lemma includes_cat :
  forall (needle part : string) (parts : list string),
    In part parts ->
    includes needle part = true ->
    includes needle (cat parts) = true.
Proof.
  intros needle part parts. induction parts as [ | p parts IH]; intros Hin H.
  - destruct Hin.
  - cbn [cat fold_right]. destruct Hin as [Heq | Hin].
    + subst p. apply includes_append_l. assumption.
    + apply includes_append_r. apply IH; assumption.
Qed.

Ltac find_part := cbn [In]; repeat first [ left; reflexivity | right ].

Lemma includes_template_heading :
  forall needle heading body : string,
    includes needle heading = true ->
    includes needle (template heading body) = true.
Proof.
  intros needle heading body H. unfold template.
  apply (includes_cat needle heading); [ find_part | exact H ].
Qed.

Lemma includes_template_body :
  forall needle heading body : string,
    includes needle body = true ->
    includes needle (template heading body) = true.
Proof.
  intros needle heading body H. unfold template.
  apply (includes_cat needle body); [ find_part | exact H ].
Qed.

Ltac name_inside :=
  match goal with
  | |- includes ?n (cat _) = true =>
      apply (includes_cat n n); [ find_part | apply includes_self ]
  end.

(** X16.  For a recognized template and a context whose [name] is a
    string, the rendered HTML contains that string exactly as given: no
    character of it is escaped or removed. *)
Theorem name_is_interpolated_verbatim :
  forall (type to data : value) (name : string),
    recognized type = true ->
    get data "name" = Ok (Some (JStr name)) ->
    exists message : email,
      buildEmail type to data = Ok (Some message)
      /\ includes name (html message) = true.
Proof.
  intros type to data name Hty Hname.
  unfold buildEmail. rewrite Hname.
  cbn [coalesce ToString unprintable to_str_json].
  destruct (recognized_cases type Hty) as [H | [H | [H | [H | H]]]]; subst type;
    (eexists; split; [ reflexivity | ]);
    cbn [html];
    first [ apply includes_template_heading; name_inside
          | apply includes_template_body; name_inside ].
Qed.

Lemma name_is_interpolated_verbatim_witness :
  exists message : email,
    buildEmail (Some (JStr "trial-expiry-1")) None
      (Some (JObj [("name", JStr "<b>Pat</b> & co")])) = Ok (Some message)
    /\ includes "<b>Pat</b> & co" (html message) = true.
Proof.
  apply (name_is_interpolated_verbatim (Some (JStr "trial-expiry-1")) None
           (Some (JObj [("name", JStr "<b>Pat</b> & co")]))
           "<b>Pat</b> & co");
    reflexivity.
Defined.

(** X17.  The subject of a rendered message depends on the template
    identifier alone: any two renderings of the same template have the same
    subject, whatever the recipients and the contexts. *)
Theorem subject_depends_on_the_template_only :
  forall (type to1 to2 data1 data2 : value) (message1 message2 : email),
    buildEmail type to1 data1 = Ok (Some message1) ->
    buildEmail type to2 data2 = Ok (Some message2) ->
    subject message1 = subject message2.
Proof.
  intros type to1 to2 data1 data2 message1 message2 H1 H2.
  unfold buildEmail, and_then in H1, H2.
  destruct (get data1 "name"); [ | discriminate H1].
  destruct (get data2 "name"); [ | discriminate H2].
  repeat match type of H1 with
         | (if ?b then _ else _) = _ => destruct b
         end;
    try discriminate H1;
    destruct (ToString _) in H1; try discriminate H1;
    destruct (ToString _) in H2; try discriminate H2;
    apply (f_equal (fun r => match r with
                             | Ok (Some m) => subject m
                             | _ => EmptyString
                             end)) in H1;
    apply (f_equal (fun r => match r with
                             | Ok (Some m) => subject m
                             | _ => EmptyString
                             end)) in H2;
    cbn [subject] in H1, H2; congruence.
Qed.

Lemma subject_depends_on_the_template_only_witness :
  exists message1 message2 : email,
    buildEmail (Some (JStr "welcome")) (Some (JStr "a@b.com"))
      (Some (JObj [("name", JStr "Pat")])) = Ok (Some message1)
    /\ buildEmail (Some (JStr "welcome")) (Some (JStr "c@d.com"))
         (Some (JObj [])) = Ok (Some message2)
    /\ subject message1 = subject message2.
Proof.
  eexists. eexists. split; [reflexivity | split; [reflexivity | ]].
  apply (subject_depends_on_the_template_only (Some (JStr "welcome"))
           (Some (JStr "a@b.com")) (Some (JStr "c@d.com"))
           (Some (JObj [("name", JStr "Pat")])) (Some (JObj [])));
    reflexivity.
Defined.

(** *** Session guards (auth.js) *)

Ltac open_page :=
  unfold requireAuth, redirectIfAuthed, getSession, getUser, signOut,
    await, read, set_location_href, location_origin, run_page in *.

Ltac page_step :=
  cbn [run_page_from page_bind events finished navigations app
       negb orb andb] in *.

Ltac explore_page :=
  repeat (page_step; try discriminate;
          first [ match goal with
                  | H : Returned _ = Returned _ |- _ =>
                      apply returned_eq in H; subst
                  end
                | split_on_scrutinee ]).

(** X18.  When the session query answers, [requireAuth] returns the
    session it found in every case, and assigns the location exactly when
    that session is falsy, to the target given or to login.html when none
    is given; it makes no other call. *)
Theorem requireAuth_redirects_without_session :
  forall (w : browser) (redirectTo result data session : value),
    sb w 0 AuthGetSession = Ok result ->
    get result "data" = Ok data ->
    get data "session" = Ok session ->
    run_page w (requireAuth redirectTo)
    = {| events :=
           Called AuthGetSession
           :: (if truthy session then []
               else [ Navigated (to_str (default_to "login.html" redirectTo)) ]);
         finished := Returned session |}.
Proof.
  intros w redirectTo result data session Hcall Hdata Hsession.
  open_page. page_step. rewrite Hcall. page_step.
  rewrite Hdata. page_step. rewrite Hsession. page_step.
  destruct (truthy session); reflexivity.
Qed.

Lemma requireAuth_redirects_without_session_witness :
  run_page
    (mk_browser (fun _ _ => Ok (Some (JObj [("data", JObj [("session", JNull)])])))
       "https://4fore.golf")
    (requireAuth None)
  = {| events := [ Called AuthGetSession; Navigated "login.html" ];
       finished := Returned (Some JNull) |}.
Proof.
  apply (requireAuth_redirects_without_session
           (mk_browser (fun _ _ => Ok (Some (JObj [("data", JObj [("session", JNull)])])))
              "https://4fore.golf")
           None
           (Some (JObj [("data", JObj [("session", JNull)])]))
           (Some (JObj [("session", JNull)]))
           (Some JNull));
    reflexivity.
Defined.

(** X19.  The two guards are complementary: in a browser where
    [requireAuth] returns a session, exactly one of [requireAuth] and
    [redirectIfAuthed] assigns the location, [redirectIfAuthed] (to its
    target, index.html by default) when the session is truthy and
    [requireAuth] (to its target, login.html by default) when it is not. *)
Theorem guards_are_complementary :
  forall (w : browser) (to_login to_home session : value),
    finished (run_page w (requireAuth to_login)) = Returned session ->
    navigations (events (run_page w (requireAuth to_login)))
    = (if truthy session then []
       else [ to_str (default_to "login.html" to_login) ])
    /\ navigations (events (run_page w (redirectIfAuthed to_home)))
       = (if truthy session then [ to_str (default_to "index.html" to_home) ]
          else []).
Proof.
  intros w to_login to_home session Hsession.
  open_page. explore_page; split; reflexivity.
Qed.

Lemma guards_are_complementary_witness :
  navigations
    (events
       (run_page
          (mk_browser
             (fun _ _ => Ok (Some (JObj [("data",
                JObj [("session", JObj [("access_token", JStr "t")])])])))
             "https://4fore.golf")
          (requireAuth None)))
  = []
  /\ navigations
       (events
          (run_page
             (mk_browser
                (fun _ _ => Ok (Some (JObj [("data",
                   JObj [("session", JObj [("access_token", JStr "t")])])])))
                "https://4fore.golf")
             (redirectIfAuthed None)))
     = [ "index.html" ].
Proof.
  apply (guards_are_complementary
           (mk_browser
              (fun _ _ => Ok (Some (JObj [("data",
                 JObj [("session", JObj [("access_token", JStr "t")])])])))
              "https://4fore.golf")
           None None
           (Some (JObj [("access_token", JStr "t")]))).
  reflexivity.
Defined.

(** X20.  When the session query fails (the call rejects, or it answers
    null or a result whose [data] is null or missing), both guards throw
    right after that one call, with the same exception, and assign no
    location: a page protected by [requireAuth] is then neither redirected
    nor given a session. *)
Theorem failed_session_query_does_not_redirect :
  forall (w : browser) (redirectTo : value),
    session_query_fails w = true ->
    exists e : exn,
      run_page w (requireAuth redirectTo)
      = {| events := [ Called AuthGetSession ]; finished := Threw e |}
      /\ run_page w (redirectIfAuthed redirectTo)
         = {| events := [ Called AuthGetSession ]; finished := Threw e |}.
Proof.
  intros w redirectTo Hfails. unfold session_query_fails in Hfails.
  open_page. page_step.
  destruct (sb w 0 AuthGetSession) as [result | e].
  - page_step. rewrite ?get_value. destruct (nullish result) eqn:Hresult.
    + page_step. eexists. split; reflexivity.
    + cbn [orb] in Hfails. page_step. rewrite ?get_value, Hfails. page_step.
      eexists. split; reflexivity.
  - page_step. eexists. split; reflexivity.
Qed.

Lemma failed_session_query_does_not_redirect_witness :
  exists e : exn,
    run_page (mk_browser (fun _ _ => Ok (Some (JObj [("error", JStr "no data")])))
                "https://4fore.golf")
      (requireAuth None)
    = {| events := [ Called AuthGetSession ]; finished := Threw e |}
    /\ run_page (mk_browser (fun _ _ => Ok (Some (JObj [("error", JStr "no data")])))
                   "https://4fore.golf")
         (redirectIfAuthed None)
       = {| events := [ Called AuthGetSession ]; finished := Threw e |}.
Proof.
  apply (failed_session_query_does_not_redirect
           (mk_browser (fun _ _ => Ok (Some (JObj [("error", JStr "no data")])))
              "https://4fore.golf")
           None).
  reflexivity.
Defined.

(** X21.  [getUser] never returns undefined: when the answer has no user,
    what it returns is null. *)
Theorem getUser_is_never_undefined :
  forall (w : browser) (user : value),
    finished (run_page w getUser) = Returned user ->
    exists j : Json,
      user = Some j /\ (nullish user = true -> j = JNull).
Proof.
  intros w user Hreturned.
  open_page. explore_page.
  match goal with
  | |- exists j, Some (coalesce ?u JNull) = Some j /\ _ =>
      exists (coalesce u JNull); split; [ reflexivity | ];
      destruct u as [[ | | | | | ] | ]; cbn [coalesce nullish];
      intro H; try discriminate H; reflexivity
  end.
Qed.

Lemma getUser_is_never_undefined_witness :
  finished
    (run_page (mk_browser (fun _ _ => Ok (Some (JObj [("data", JObj [])])))
                 "https://4fore.golf")
       getUser)
  = Returned (Some JNull)
  /\ exists j : Json,
       Some JNull = Some j /\ (nullish (Some JNull) = true -> j = JNull).
Proof.
  split; [ reflexivity | ].
  apply (getUser_is_never_undefined
           (mk_browser (fun _ _ => Ok (Some (JObj [("data", JObj [])])))
              "https://4fore.golf")
           (Some JNull)).
  reflexivity.
Defined.

(** X22.  [signOut] assigns the location login.html once the sign-out
    call has resolved, whatever it resolved to (an answer carrying an
    [error] included); when the call rejects, the exception goes to the
    caller and the location is left alone. *)
Theorem signOut_then_login_page :
  forall w : browser,
    (forall answer : value,
        sb w 0 AuthSignOut = Ok answer ->
        run_page w signOut
        = {| events := [ Called AuthSignOut; Navigated "login.html" ];
             finished := Returned tt |})
    /\ (forall e : exn,
           sb w 0 AuthSignOut = Raise e ->
           run_page w signOut
           = {| events := [ Called AuthSignOut ]; finished := Threw e |}).
Proof.
  intro w. split; intros x Hcall; open_page; page_step; rewrite Hcall; reflexivity.
Qed.

Lemma signOut_then_login_page_witness :
  run_page
    (mk_browser
       (fun _ _ => Ok (Some (JObj [("error", JObj [("message", JStr "session missing")])])))
       "https://4fore.golf")
    signOut
  = {| events := [ Called AuthSignOut; Navigated "login.html" ];
       finished := Returned tt |}.
Proof.
  apply (proj1 (signOut_then_login_page
                  (mk_browser
                     (fun _ _ => Ok (Some (JObj
                        [("error", JObj [("message", JStr "session missing")])])))
                     "https://4fore.golf"))
           (Some (JObj [("error", JObj [("message", JStr "session missing")])]))).
  reflexivity.
Defined.

(** *** The wrappers of the edge functions (auth.js) *)

(** X23.  [sendEmail] makes one fetch, and throws exactly when that fetch
    gave no parsed JSON (it rejected, or the body was not JSON); in every
    other case it returns, also the JSON text [null]. *)
Theorem sendEmail_throws_only_on_transport_failure :
  forall (w : world) (type to data : value),
    length (fetched (run w (sendEmail type to data))) = 1%nat
    /\ ((exists e : exn, outcome (run w (sendEmail type to data)) = Threw e)
        <-> raised (upstream w 0 (send_email_request type to (default_data data)))
            = true).
Proof.
  intros w type to data. open_handlers. run_step.
  destruct (upstream w 0 (send_email_request type to (default_data data)))
    as [e | [b [j | ]]]; run_step; split; try reflexivity; split.
  - reflexivity.
  - intros _. eexists. reflexivity.
  - intros (e & H). discriminate H.
  - discriminate.
  - reflexivity.
  - intros _. eexists. reflexivity.
Qed.

(** X24.  What [createSetupIntent] returns is never an error envelope: a
    returned value is a parsed reply that is not null and has no truthy
    [error]. *)
Theorem createSetupIntent_returns_no_error :
  forall (w : world) (email userId : value) (j : Json),
    outcome (run w (createSetupIntent email userId)) = Returned j ->
    nullish (Some j) = false
    /\ truthy (property j "error") = false
    /\ fetched (run w (createSetupIntent email userId))
       = [ (create_setup_intent_request email userId,
            upstream w 0 (create_setup_intent_request email userId)) ]
    /\ exists b : bool,
         upstream w 0 (create_setup_intent_request email userId)
         = Resolved {| ok := b; parsed := Some j |}.
Proof.
  intros w email userId j Hreturned.
  open_handlers. run_step.
  destruct (upstream w 0 (create_setup_intent_request email userId))
    as [e | [b [reply | ]]]; run_step; try discriminate Hreturned.
  rewrite get_value in *.
  destruct (nullish (Some reply)) eqn:Hnull; run_step;
    [ discriminate Hreturned | ].
  cbn [property_of] in *.
  destruct (truthy (property reply "error")) eqn:Herror; run_step;
    [ discriminate Hreturned | ].
  apply returned_eq in Hreturned. subst reply.
  split; [ exact Hnull | ]. split; [ exact Herror | ].
  split; [ reflexivity | exists b; reflexivity ].
Qed.

Lemma createSetupIntent_returns_no_error_witness :
  nullish (Some (JObj [("clientSecret", JStr "seti_1_secret_x");
                       ("customerId", JStr "cus_1")])) = false
  /\ truthy (property (JObj [("clientSecret", JStr "seti_1_secret_x");
                             ("customerId", JStr "cus_1")]) "error") = false.
Proof.
  destruct (createSetupIntent_returns_no_error
              (replies [ JObj [("clientSecret", JStr "seti_1_secret_x");
                               ("customerId", JStr "cus_1")] ])
              (Some (JStr "a@b.com")) (Some (JStr "u1"))
              (JObj [("clientSecret", JStr "seti_1_secret_x");
                     ("customerId", JStr "cus_1")])
              eq_refl)
    as (Hnull & Herror & _).
  split; assumption.
Defined.

(** *** The row of a profile upsert *)

Lemma lookup_absent :
  forall (o : object) (k : string), ~ In k (keys o) -> lookup k o = None.
Proof.
  induction o as [ | [k' v'] rest IH]; intros k Hnot; cbn [lookup].
  - reflexivity.
  - destruct (String.eqb k k') eqn:Hk.
    + apply String.eqb_eq in Hk. subst k'. exfalso. apply Hnot. left. reflexivity.
    + apply IH. intro Hin. apply Hnot. right. exact Hin.
Qed.

Lemma lookup_assign_all :
  forall (props o : object) (k : string),
    NoDup (keys props) ->
    lookup k (fold_left (fun acc p => set_prop acc (fst p) (snd p)) props o)
    = match lookup k props with
      | Some v => Some v
      | None => lookup k o
      end.
Proof.
  induction props as [ | [k' v'] rest IH]; intros o k Hnodup;
    cbn [fold_left fst snd lookup].
  - reflexivity.
  - inversion Hnodup as [ | ? ? Hnotin Hrest]; subst.
    rewrite (IH _ _ Hrest).
    destruct (String.eqb k k') eqn:Hk.
    + apply String.eqb_eq in Hk. subst k'.
      rewrite (lookup_absent rest k Hnotin). apply lookup_set_prop_same.
    + destruct (lookup k rest); [ reflexivity | ].
      apply lookup_set_prop_other. exact Hk.
Qed.

Lemma keys_filter_subset :
  forall (f : string * value -> bool) (o : object) (k : string),
    In k (keys (filter f o)) -> In k (keys o).
Proof.
  intros f o k Hin. unfold keys in *.
  apply in_map_iff in Hin. destruct Hin as (p & Hfst & Hp).
  apply filter_In in Hp. destruct Hp as [Hp _].
  apply in_map_iff. exists p. split; assumption.
Qed.

Lemma nodup_keys_filter :
  forall (f : string * value -> bool) (o : object),
    NoDup (keys o) -> NoDup (keys (filter f o)).
Proof.
  intros f o. induction o as [ | [k v] rest IH]; intro Hnodup; cbn [filter].
  - constructor.
  - inversion Hnodup as [ | ? ? Hnotin Hrest]; subst.
    destruct (f (k, v)).
    + cbn [keys map fst]. constructor.
      * intro Hin. apply Hnotin. apply (keys_filter_subset f rest k Hin).
      * apply IH. exact Hrest.
    + apply IH. exact Hrest.
Qed.

Lemma nodup_keys_properties :
  forall fields : list (string * Json), NoDup (keys (properties fields)).
Proof.
  induction fields as [ | [k v] rest IH]; cbn [properties keys map fst].
  - constructor.
  - constructor.
    + intro Hin. unfold keys in Hin. fold (keys (filter (fun p => negb (String.eqb k (fst p))) (properties rest))) in Hin.
      unfold keys in Hin. apply in_map_iff in Hin.
      destruct Hin as ([k' v'] & Hfst & Hp). cbn [fst] in Hfst. subst k'.
      apply filter_In in Hp. destruct Hp as [_ Hp]. cbn [fst] in Hp.
      rewrite String.eqb_refl in Hp. discriminate Hp.
    + apply nodup_keys_filter. exact IH.
Qed.

Lemma lookup_filter_other :
  forall (o : object) (k k0 : string),
    lookup k (filter (fun p => negb (String.eqb k0 (fst p))) o)
    = if String.eqb k0 k then None else lookup k o.
Proof.
  induction o as [ | [k' v'] rest IH]; intros k k0; cbn [filter lookup fst].
  - destruct (String.eqb k0 k); reflexivity.
  - destruct (String.eqb k0 k') eqn:H0; cbn [negb lookup].
    + apply String.eqb_eq in H0. subst k'. rewrite IH.
      rewrite (String.eqb_sym k k0).
      destruct (String.eqb k0 k); reflexivity.
    + rewrite IH. destruct (String.eqb k k') eqn:Hk.
      * apply String.eqb_eq in Hk. subst k'. rewrite H0. reflexivity.
      * reflexivity.
Qed.

Lemma lookup_properties :
  forall (fields : list (string * Json)) (k : string),
    lookup k (properties fields)
    = match assoc k fields with
      | Some v => Some (Some v)
      | None => None
      end.
Proof.
  induction fields as [ | [k' v'] rest IH]; intro k; cbn [properties lookup assoc].
  - reflexivity.
  - destruct (String.eqb k k') eqn:Hk; [ reflexivity | ].
    rewrite lookup_filter_other. rewrite (String.eqb_sym k' k), Hk. apply IH.
Qed.

(** X25.  When [fields] is a mapping, every one of its properties other
    than [updated_at] is in the row that [upsertProfile] sends, with its
    value; this includes [id], so that an [id] inside [fields] replaces the
    user identifier given as first argument. *)
Theorem upsert_row_carries_the_fields :
  forall (w : world) (userId : value) (fields : list (string * Json))
         (k : string) (v : Json),
    String.eqb k "updated_at" = false ->
    assoc k fields = Some v ->
    exists r : object,
      stored (run w (upsertProfile userId (Some (JObj fields))))
      = [ {| table := "profiles"; operation := "upsert"; row := r |} ]
      /\ lookup k r = Some (Some v).
Proof.
  intros w userId fields k v Hk Hfield.
  eexists. split; [ reflexivity | ].
  rewrite lookup_set_prop_other by exact Hk.
  unfold spread, own_properties.
  rewrite lookup_assign_all by apply nodup_keys_properties.
  rewrite lookup_properties, Hfield. reflexivity.
Qed.

Lemma upsert_row_carries_the_fields_witness :
  exists r : object,
    stored (run (replies [])
              (upsertProfile (Some (JStr "user-1"))
                 (Some (JObj [("handicap", JNum 12); ("id", JStr "user-2")]))))
    = [ {| table := "profiles"; operation := "upsert"; row := r |} ]
    /\ lookup "id" r = Some (Some (JStr "user-2")).
Proof.
  apply (upsert_row_carries_the_fields (replies []) (Some (JStr "user-1"))
           [("handicap", JNum 12); ("id", JStr "user-2")] "id" (JStr "user-2"));
    reflexivity.
Defined.

(** *** No upstream traffic for a request that fails validation *)

Lemma buildEmail_some_is_recognized :
  forall (type to data : value) (message : email),
    buildEmail type to data = Ok (Some message) -> recognized type = true.
Proof.
  intros type to data message H.
  destruct (recognized type) eqn:Hty; [ reflexivity | ].
  destruct (nullish data) eqn:Hdata.
  - unfold buildEmail in H. rewrite get_value, Hdata in H. discriminate H.
  - rewrite (buildEmail_unrecognized type to data Hdata Hty) in H. discriminate H.
Qed.

(** X26.  A function fetches only for a request that passed every check:
    whenever a run makes a fetch, the method is POST, the body is JSON with
    both required fields truthy and, for send-email, the template
    identifier is one of the five known ones. *)
Theorem fetch_only_for_a_valid_request :
  forall (sgz : string -> bool) (h : handler) (env : environment)
         (req : request) (w : world),
    fetched (run w (serve sgz h env req)) <> [] ->
    String.eqb (method req) "POST" = true
    /\ exists body : Json,
         json_body req = Some body
         /\ truthy (property body (fst (required_fields h))) = true
         /\ truthy (property body (snd (required_fields h))) = true
         /\ (h = SendEmail -> recognized (property body "type") = true).
Proof.
  intros sgz h env req w Hfetched.
  destruct h; open_handlers;
    repeat (run_step; cbn [property_of] in *; try discriminate;
            first [ rewrite get_value in *
                  | match goal with
                    | H : [] <> [] |- _ => destruct (H eq_refl)
                    | H : _ :: _ <> [] |- _ => clear H
                    | H : nullish (Some ?j) = true |- _ =>
                        apply nullish_some_null in H; subst j
                    | H : negb ?b = false |- _ =>
                        destruct b; [ clear H | discriminate H ]
                    | H : negb ?a || negb ?b = false |- _ =>
                        destruct a eqn:?; destruct b eqn:?; try discriminate H; clear H
                    | H : buildEmail _ _ _ = Ok (Some _) |- _ =>
                        apply buildEmail_some_is_recognized in H
                    | |- _ /\ _ => split
                    | |- exists body : Json, Some ?j = Some body /\ _ => exists j
                    | |- _ = _ => first [ reflexivity | assumption ]
                    | |- _ -> _ => intro
                    end
                  | match goal with
                    | H : context [fetched (run_from _ _ _)] |- _ => split_on_scrutinee
                    end ]).
Qed.

Lemma fetch_only_for_a_valid_request_witness :
  String.eqb "POST" "POST" = true
  /\ exists body : Json,
       Some (JObj [("type", JStr "welcome"); ("to", JStr "a@b.com")]) = Some body
       /\ truthy (property body "type") = true
       /\ truthy (property body "to") = true
       /\ (SendEmail = SendEmail -> recognized (property body "type") = true).
Proof.
  apply (fetch_only_for_a_valid_request (fun _ => false) SendEmail
           (mk_environment EmptyString "re_test")
           (mk_request "POST"
              (Some (JObj [("type", JStr "welcome"); ("to", JStr "a@b.com")])))
           (replies [ JObj [("id", JStr "msg_1")] ])).
  vm_compute. discriminate.
Defined.

(** *** Which facade functions assign the location *)

(** X27.  Only the guards and [signOut] assign the location: whatever the
    client answers, [getSession], [getUser], [signUp], [signIn],
    [sendPasswordReset] and [getProfile] make exactly one call on the
    client and never navigate. *)
Theorem queries_and_actions_do_not_navigate :
  forall (w : browser) (email password userId : value),
    events (run_page w getSession) = [ Called AuthGetSession ]
    /\ events (run_page w getUser) = [ Called AuthGetUser ]
    /\ events (run_page w (signUp email password))
       = [ Called (AuthSignUp [("email", email); ("password", password)]) ]
    /\ events (run_page w (signIn email password))
       = [ Called (AuthSignInWithPassword [("email", email); ("password", password)]) ]
    /\ events (run_page w (sendPasswordReset email))
       = [ Called (AuthResetPasswordForEmail email
                     [("redirectTo",
                       Some (JStr (origin w ++ "/reset-password.html")))]) ]
    /\ events (run_page w (getProfile userId))
       = [ Called (SelectSingle "profiles" "*" "id" userId) ].
Proof.
  intros w email password userId.
  unfold signUp, signIn, sendPasswordReset, getProfile.
  open_page.
  repeat split; explore_page; reflexivity.
Qed.

(** *** Values without a string form *)

Lemma ToString_throws :
  forall v : value, prints v = false -> ToString v = Raise (TypeError "toString").
Proof.
  intros [j | ] H; [ | discriminate H].
  unfold prints in H. apply negb_false_iff in H.
  unfold ToString. rewrite H. reflexivity.
Qed.

(** X29.  send-email puts the name into the template, and the [type] into
    the message about an unknown type, before its [try].  On a POST with
    the secret set, truthy [type] and [to] and a context that is not null:
    when the template is recognized and the name has no string form, or the
    template is not recognized and the [type] has none, the handler throws
    a TypeError: no response is built and nothing is fetched. *)
Theorem send_email_throws_without_string_form :
  forall (key : string) (w : world) (body : Json),
    let type := property body "type" in
    let data := default_data (property body "data") in
    is_empty key = false ->
    truthy type = true ->
    truthy (property body "to") = true ->
    nullish data = false ->
    (if recognized type then name_prints data else prints type) = false ->
    run w (send_email key (mk_request "POST" (Some body)))
    = silently (Threw (TypeError "toString")).
Proof.
  intros key w body type data Hkey Htype Hto Hdata Hprints. subst type data.
  assert (Hbody : nullish (Some body) = false).
  { destruct body; try reflexivity. discriminate Htype. }
  open_handlers. run_step. rewrite Hkey.
  rewrite !get_property by assumption. run_step.
  rewrite Htype, Hto. run_step.
  destruct (recognized (property body "type")) eqn:Hty.
  - rewrite (buildEmail_recognized_throws _ _ _ Hdata Hprints Hty). reflexivity.
  - rewrite (buildEmail_unrecognized _ _ _ Hdata Hty).
    rewrite (ToString_throws _ Hprints). reflexivity.
Qed.

Lemma send_email_throws_without_string_form_witness :
  run (replies [])
    (send_email "re_test"
       (mk_request "POST"
          (Some (JObj [("type", JStr "welcome"); ("to", JStr "a@b.com");
                       ("data", JObj [("name", JObj [("toString", JNum 1)])])]))))
  = silently (Threw (TypeError "toString")).
Proof.
  apply (send_email_throws_without_string_form "re_test" (replies [])
           (JObj [("type", JStr "welcome"); ("to", JStr "a@b.com");
                  ("data", JObj [("name", JObj [("toString", JNum 1)])])]));
    reflexivity.
Defined.

(** X30.  The three payment functions convert the first required field to
    a string inside their [try], before any upstream call (in a URL for
    create-subscription, in the form of the POST for the two others).  On a
    POST with the secret set and both required fields truthy, when the
    first one has no string form the function fetches nothing, logs the
    TypeError and answers 500 with the fixed body. *)
Theorem unprintable_field_is_a_500_without_fetch :
  forall (sgz : string -> bool) (h : handler) (env : environment)
         (w : world) (body : Json),
    h <> SendEmail ->
    is_empty (secret_of h env) = false ->
    truthy (property body (fst (required_fields h))) = true ->
    truthy (property body (snd (required_fields h))) = true ->
    prints (property body (fst (required_fields h))) = false ->
    run w (serve sgz h env (mk_request "POST" (Some body)))
    = {| fetched := [];
         logged := [ [ LogStr "Unexpected error:"; LogExn (TypeError "toString") ] ];
         stored := [];
         outcome := Returned internal_server_error |}.
Proof.
  intros sgz h env w body Hh Hkey Hfirst Hsecond Hprints.
  assert (Hbody : nullish (Some body) = false).
  { destruct body; try reflexivity. destruct h; discriminate Hfirst. }
  destruct h; try (exfalso; apply Hh; reflexivity);
    cbn [required_fields fst snd] in *;
    open_handlers; run_step; rewrite Hkey;
    rewrite !get_property by assumption; run_step;
    rewrite Hfirst, Hsecond; run_step;
    rewrite (ToString_throws _ Hprints); reflexivity.
Qed.

Lemma unprintable_field_is_a_500_without_fetch_witness :
  run (replies [ JObj [("id", JStr "cus_1")] ])
    (serve (fun _ => false) CreateSubscription
       (mk_environment "sk_test" EmptyString)
       (mk_request "POST"
          (Some (JObj [("customerId", JObj [("toString", JNum 0)]);
                       ("priceId", JStr "price_1")]))))
  = {| fetched := [];
       logged := [ [ LogStr "Unexpected error:"; LogExn (TypeError "toString") ] ];
       stored := [];
       outcome := Returned internal_server_error |}.
Proof.
  apply (unprintable_field_is_a_500_without_fetch (fun _ => false) CreateSubscription
           (mk_environment "sk_test" EmptyString)
           (replies [ JObj [("id", JStr "cus_1")] ])
           (JObj [("customerId", JObj [("toString", JNum 0)]);
                  ("priceId", JStr "price_1")]));
    [ discriminate | reflexivity | reflexivity | reflexivity | reflexivity ].
Defined.
